(** * API_YamDB: the views of [api_yamdb/api/views.py]

    A shallow embedding of the request handlers of the YaMDb content-rating
    service.  Tables are finite maps from primary keys to rows, a handler is
    a computation in a state-and-exception monad over the store, and the
    parts of the project that live in other modules (serializers, permission
    classes, the title filter, the settings) together with the library
    oracles (token generator, JWT issuance) are the fields of one interface,
    [Project]. *)

From Stdlib Require Import ZArith QArith String Ascii List.
From stdpp Require Import base option list strings gmap.

Local Open Scope Z_scope.
Local Open Scope string_scope.

(** ** Python values *)

Module Py.

(** [needle in hay] on [str]: [needle] occurs as a contiguous slice. *)
Fixpoint str_in (needle hay : string) : bool :=
  String.prefix needle hay
  || match hay with
     | EmptyString => false
     | String _ rest => str_in needle rest
     end.

(** Truth value testing: [__bool__] when the class defines it, otherwise
    [__len__] (non-zero is true), otherwise every instance is true. *)
Class Object (A : Type) := {
  dunder_bool : option (A -> bool);
  dunder_len : option (A -> nat)
}.

Definition truth {A} `{Object A} (x : A) : bool :=
  match dunder_bool with
  | Some f => f x
  | None =>
      match dunder_len with
      | Some f => negb (Nat.eqb (f x) 0)
      | None => true
      end
  end.

End Py.

(** ** Data model *)

(** JSON-like values carried by validated data and response bodies. *)
Inductive Role := RoleUser | RoleModerator | RoleAdmin.

Inductive Value :=
| VNone
| VBool (b : bool)
| VInt (n : Z)
| VStr (s : string)
| VRole (r : Role).

(** Modelled from the spec: the rows of [reviews.models], which is not part
    of the sources at hand.  A row holds the columns the views and the spec
    mention; its primary key is the key of the table it is stored in. *)
Record User := mkUser {
  username : string;
  email : string;
  role : Role;
  is_active : bool
}.

Record Title := mkTitle {
  title_name : string
}.

Record Review := mkReview {
  review_title : Z;
  review_author : Z;
  review_text : string;
  review_score : Z
}.

Record Comment := mkComment {
  comment_review : Z;
  comment_author : Z;
  comment_text : string
}.

(** A model instance: primary key and column values. *)
Definition Instance (A : Type) : Type := Z * A.
Definition pk {A} (obj : Instance A) : Z := obj.1.
Definition row {A} (obj : Instance A) : A := obj.2.

(** Django's [Model] defines neither [__bool__] nor [__len__]. *)
#[global] Instance Model_object {A} : Py.Object (Instance A) :=
  {| Py.dunder_bool := None; Py.dunder_len := None |}.

Record EmailMessage := mkEmail {
  mail_subject : string;
  mail_body : string;
  mail_from : string;
  mail_to : list string
}.

Record Store := mkStore {
  users : gmap Z User;
  titles : gmap Z Title;
  reviews : gmap Z Review;
  comments : gmap Z Comment;
  outbox : list EmailMessage
}.

Definition set_users (f : gmap Z User -> gmap Z User) (s : Store) : Store :=
  mkStore (f (users s)) (titles s) (reviews s) (comments s) (outbox s).
Definition set_reviews (f : gmap Z Review -> gmap Z Review) (s : Store)
    : Store :=
  mkStore (users s) (titles s) (f (reviews s)) (comments s) (outbox s).
Definition set_comments (f : gmap Z Comment -> gmap Z Comment) (s : Store)
    : Store :=
  mkStore (users s) (titles s) (reviews s) (f (comments s)) (outbox s).
Definition set_outbox (f : list EmailMessage -> list EmailMessage)
    (s : Store) : Store :=
  mkStore (users s) (titles s) (reviews s) (comments s) (f (outbox s)).

(** ** Exceptions and the handler monad *)

Definition Errors : Type := gmap string (list string).

Inductive exn :=
| ValidationError (errors : Errors)
| Http404
| NotAuthenticated
| PermissionDenied
| Uncaught (name : string).

Inductive result (A : Type) :=
| Ok (a : A)
| Raise (e : exn).
Arguments Ok {A} a.
Arguments Raise {A} e.

(** A handler reads and writes the store and may raise; what was written
    before an exception stays written. *)
Definition M (A : Type) : Type := Store -> result A * Store.

Definition ret {A} (a : A) : M A := fun s => (Ok a, s).
Definition raise {A} (e : exn) : M A := fun s => (Raise e, s).
Definition bind {A B} (m : M A) (k : A -> M B) : M B :=
  fun s =>
    match m s with
    | (Ok a, s') => k a s'
    | (Raise e, s') => (Raise e, s')
    end.
Definition reads {A} (f : Store -> A) : M A := fun s => (Ok (f s), s).
Definition modify (f : Store -> Store) : M unit := fun s => (Ok tt, f s).

Notation "x <- m ;; k" := (bind m (fun x => k))
  (at level 100, m at next level, right associativity).
Notation "m ;;; k" := (bind m (fun _ => k))
  (at level 100, right associativity).

(** [serializer.is_valid(raise_exception=True)]: the validated data, or
    [ValidationError] carrying the messages per field. *)
Definition is_valid {A} (run_validation : Store -> Errors + A) : M A :=
  fun s =>
    match run_validation s with
    | inl errors => (Raise (ValidationError errors), s)
    | inr validated_data => (Ok validated_data, s)
    end.

(** ** The object-relational layer *)

Module Orm.

(** [Model.objects.all()]. *)
Definition objects {A} (table : gmap Z A) : list (Instance A) :=
  map_to_list table.

(** [Model.objects.get] on a lookup, wrapped by
    [django.shortcuts.get_object_or_404]: exactly one matching row is
    returned, none is [Http404], and several propagate as
    [MultipleObjectsReturned]. *)
Definition get_object_or_404 {A} (queryset : Store -> list A)
    (lookup : A -> Prop) `{!forall obj, Decision (lookup obj)} : M A :=
  fun s =>
    match filter lookup (queryset s) with
    | [] => (Raise Http404, s)
    | [obj] => (Ok obj, s)
    | _ => (Raise (Uncaught "MultipleObjectsReturned"), s)
    end.

(** The next value of an auto-incremented primary key. *)
Definition next_pk {A} (table : gmap Z A) : Z :=
  1 + foldr Z.max 0 (objects table).*1.

(** [Review.objects.create(...)] and [Comment.objects.create(...)]. *)
Definition create_review (r : Review) : M (Instance Review) :=
  fun s =>
    let id := next_pk (reviews s) in
    (Ok (id, r), set_reviews (insert id r) s).

Definition create_comment (c : Comment) : M (Instance Comment) :=
  fun s =>
    let id := next_pk (comments s) in
    (Ok (id, c), set_comments (insert id c) s).

(** [instance.save()] of an existing row. *)
Definition save_user (u : Instance User) : M unit :=
  modify (set_users (insert (pk u) (row u))).
Definition save_review (r : Instance Review) : M unit :=
  modify (set_reviews (insert (pk r) (row r))).
Definition save_comment (c : Instance Comment) : M unit :=
  modify (set_comments (insert (pk c) (row c))).

(** Modelled from the spec: the cascade of [reviews.models] on deletion
    (a deleted review takes its comments with it; a deleted user takes
    what they authored). *)
Definition delete_review (id : Z) : M unit :=
  modify (fun s =>
    set_comments (filter (fun kc => comment_review kc.2 <> id))
      (set_reviews (delete id) s)).

Definition delete_comment (id : Z) : M unit :=
  modify (set_comments (delete id)).

Definition delete_user (id : Z) : M unit :=
  modify (fun s =>
    let gone := filter (fun kr => review_author kr.2 = id) (reviews s) in
    set_comments
      (filter (fun kc => comment_author kc.2 <> id
                         /\ gone !! comment_review kc.2 = None))
      (set_reviews (filter (fun kr => review_author kr.2 <> id))
         (set_users (delete id) s))).

(** *** Aggregation: [annotate(rating=Avg('reviews__score'))]

    The query is
    [SELECT title.id, ..., AVG(review.score) FROM title
     LEFT OUTER JOIN review ON title.id = review.title_id
     GROUP BY title.id]. *)

Definition JoinRow : Type := Instance Title * option (Instance Review).

Definition join_rows (rs : list (Instance Review)) (t : Instance Title)
    : list JoinRow :=
  match filter (fun r : Instance Review => review_title (row r) = pk t) rs with
  | [] => [(t, None)]
  | matching => (fun r => (t, Some r)) <$> matching
  end.

Definition left_outer_join (ts : list (Instance Title))
    (rs : list (Instance Review)) : list JoinRow :=
  ts ≫= join_rows rs.

Definition group_by {A} (key : A -> Z) (rows : list A) : list (Z * list A) :=
  (fun k => (k, filter (fun r => key r = k) rows))
    <$> remove_dups (key <$> rows).

(** SQL [AVG]: NULLs are skipped, and the result is NULL when nothing is
    left.  The quotient is kept exact. *)
Definition Avg (column : list (option Z)) : option Q :=
  match omap id column with
  | [] => None
  | v :: vs =>
      Some (foldr Z.add 0 (v :: vs) # Pos.of_nat (length (v :: vs)))
  end.

Definition score_column (rows : list JoinRow) : list (option Z) :=
  (fun jr : JoinRow => (fun r => review_score (row r)) <$> jr.2) <$> rows.

Definition annotate_rating (s : Store) : list (Instance Title * option Q) :=
  let rows :=
    left_outer_join (objects (titles s)) (objects (reviews s)) in
  omap (fun g : Z * list JoinRow =>
          match g.2 with
          | [] => None
          | first :: _ => Some (first.1, Avg (score_column g.2))
          end)
       (group_by (fun jr : JoinRow => pk jr.1) rows).

End Orm.

(** ** Requests, responses and the framework's request cycle *)

Definition Payload : Type := gmap string Value.

Record Request := mkRequest {
  method : string;
  (** [request.user]: [None] stands for the anonymous user. *)
  user : option (Instance User);
  data : Payload;
  (** The clock reading at which the request is served. *)
  clock : Z
}.

(** JSON values of a rendered object; a number may be a fraction. *)
Inductive Json :=
| JNull
| JValue (v : Value)
| JNumber (q : Q).

Inductive Body :=
| NoData
| Detail (message : string)
| FieldErrors (errors : Errors)
| Object (fields : gmap string Json)
| ObjectList (items : list (gmap string Json))
| Metadata.

Record Response := mkResponse {
  response_data : Body;
  status : Z
}.

Module Drf.

Definition HTTP_200_OK : Z := 200.
Definition HTTP_201_CREATED : Z := 201.
Definition HTTP_204_NO_CONTENT : Z := 204.
Definition HTTP_400_BAD_REQUEST : Z := 400.
Definition HTTP_401_UNAUTHORIZED : Z := 401.
Definition HTTP_403_FORBIDDEN : Z := 403.
Definition HTTP_404_NOT_FOUND : Z := 404.
Definition HTTP_405_METHOD_NOT_ALLOWED : Z := 405.
Definition HTTP_500_INTERNAL_SERVER_ERROR : Z := 500.

(** [rest_framework.views.exception_handler]; what it does not handle
    becomes the server-error page.  Under bearer-token authentication a
    request without credentials is answered 401. *)
Definition exception_handler (e : exn) : Response :=
  match e with
  | ValidationError errors =>
      mkResponse (FieldErrors errors) HTTP_400_BAD_REQUEST
  | Http404 => mkResponse (Detail "Not found.") HTTP_404_NOT_FOUND
  | NotAuthenticated =>
      mkResponse (Detail "Authentication credentials were not provided.")
        HTTP_401_UNAUTHORIZED
  | PermissionDenied =>
      mkResponse
        (Detail "You do not have permission to perform this action.")
        HTTP_403_FORBIDDEN
  | Uncaught _ => mkResponse NoData HTTP_500_INTERNAL_SERVER_ERROR
  end.

(** [APIView.dispatch]: the handler's response, or the exception handler's. *)
Definition dispatch (handler : M Response) (s : Store) : Response * Store :=
  match handler s with
  | (Ok response, s') => (response, s')
  | (Raise e, s') => (exception_handler e, s')
  end.

Definition SAFE_METHODS : list string := ["GET"; "HEAD"; "OPTIONS"].

Definition is_authenticated (request : Request) : bool :=
  match user request with Some _ => true | None => false end.

(** [rest_framework.permissions]. *)
Definition AllowAny (request : Request) : bool := true.
Definition IsAuthenticated (request : Request) : bool :=
  is_authenticated request.
Definition IsAuthenticatedOrReadOnly (request : Request) : bool :=
  bool_decide (method request ∈ SAFE_METHODS) || is_authenticated request.

(** [APIView.permission_denied]. *)
Definition permission_denied {A} (request : Request) : M A :=
  if is_authenticated request then raise PermissionDenied
  else raise NotAuthenticated.

(** [APIView.check_permissions] and [check_object_permissions]: the
    first class that refuses ends the request. *)
Fixpoint check_permissions (request : Request) (verdicts : list bool)
    : M unit :=
  match verdicts with
  | [] => ret tt
  | granted :: rest =>
      if granted then check_permissions request rest
      else permission_denied request
  end.

(** [APIView.http_method_not_allowed], as the exception handler answers
    it: the view has no handler for the method of the request. *)
Definition http_method_not_allowed (request : Request) : Response :=
  let quote := String "034"%char EmptyString in
  mkResponse
    (Detail ("Method " ++ quote ++ method request ++ quote ++ " not allowed."))
    HTTP_405_METHOD_NOT_ALLOWED.

(** [APIView.options]: the framework's own answer to OPTIONS, the
    description of the view, whose content is not modelled. *)
Definition options (request : Request) : Response :=
  mkResponse Metadata HTTP_200_OK.

(** The actions a [ModelViewSet] routes to. *)
Inductive Action :=
| list_action
| create
| retrieve
| update
| partial_update
| destroy.

End Drf.

(** ** What the views import from the rest of the project *)

Record SignUpData := mkSignUpData {
  signup_username : string;
  signup_email : string
}.

Record TokenData := mkTokenData {
  token_username : string;
  token_confirmation_code : string
}.

Record ReviewData := mkReviewData {
  data_text : string;
  data_score : Z
}.

Definition Kwargs : Type := gmap string Z.

(** The serializers, permission classes, filter and settings of the
    project, and the two library oracles the views call.  Nothing is
    assumed about them beyond their types. *)
Class Project := {
  (** [default_token_generator.make_token(user)] and
      [check_token(user, token)], at a clock reading. *)
  make_token : Instance User -> Z -> string;
  check_token : Instance User -> Z -> string -> bool;
  (** [str(RefreshToken.for_user(user).access_token)]. *)
  access_token_for_user : Instance User -> Z -> string;
  (** [api_yamdb.settings]. *)
  EMAIL_YAMDB : string;
  (** [api.filters]. *)
  TitleFilter : Request -> Instance Title -> bool;
  (** [api.permissions]. *)
  IsAdminOrReadOnly_on_title : Request -> Instance Title -> bool;
  IsAdminOrAuthorOrReadOnly_has_permission : Request -> bool;
  IsAdminOrAuthorOrReadOnly_on_review : Request -> Instance Review -> bool;
  IsAdminOrAuthorOrReadOnly_on_comment : Request -> Instance Comment -> bool;
  (** [api.serializers]. *)
  TitlesSerializer_fields : Instance Title -> gmap string Json;
  TitleCreateSerializer_data : Instance Title -> gmap string Json;
  SignUpSerializer_run_validation : Payload -> Store -> Errors + SignUpData;
  SignUpSerializer_save : SignUpData -> Store -> Instance User * Store;
  SignUpSerializer_data : Instance User -> gmap string Json;
  TokenSerializer_run_validation : Payload -> Store -> Errors + TokenData;
  UserSerializer_run_validation :
    Instance User -> Payload -> Store -> Errors + gmap string Value;
  UserSerializer_data : Instance User -> gmap string Json;
  ReviewSerializer_validate_create :
    Request -> Kwargs -> Store -> Errors + ReviewData;
  ReviewSerializer_validate_update :
    bool -> Instance Review -> Request -> Kwargs -> Store
    -> Errors + gmap string Value;
  ReviewSerializer_data : Instance Review -> gmap string Json;
  CommentSerializer_validate_create :
    Request -> Kwargs -> Store -> Errors + string;
  CommentSerializer_validate_update :
    bool -> Instance Comment -> Request -> Kwargs -> Store
    -> Errors + gmap string Value;
  CommentSerializer_data : Instance Comment -> gmap string Json
}.

(** ** The views *)

Section Views.

Context `{Project}.

Import Drf.

Definition SEND_CODE_MESSAGE : string := "Код подтверждения".

(** [django.core.mail.send_mail]: the message is handed to the mail
    backend, here an outbox, and one message is reported sent. *)
Definition send_mail (subject message from_email : string)
    (recipient_list : list string) : M Z :=
  fun s =>
    let sent := mkEmail subject message from_email recipient_list in
    (Ok 1, set_outbox (fun box => (box ++ [sent])%list) s).

(** [now] is the clock reading the token generator takes the time from. *)
Definition send_confirmation_code (now : Z) (user : Instance User) : M Z :=
  let confirmation_code := make_token user now in
  let user_mail := [email (row user)] in
  let site_email := EMAIL_YAMDB in
  let message := SEND_CODE_MESSAGE in
  send_mail message confirmation_code site_email user_mail.

(** *** TitleViewSet *)

Inductive SerializerClass := TitlesSerializer | TitleCreateSerializer.

Definition get_serializer_class (request : Request) : SerializerClass :=
  if negb (Py.str_in (method request) "GET") then TitleCreateSerializer
  else TitlesSerializer.

(** Modelled from the spec: [TitlesSerializer] of [api.serializers]
    renders a title with its computed rating, absent as null. *)
Definition TitlesSerializer_data (obj : Instance Title * option Q)
    : gmap string Json :=
  <["rating" := match obj.2 with Some q => JNumber q | None => JNull end]>
    (TitlesSerializer_fields obj.1).

Definition TitleViewSet_serializer_data (request : Request)
    (obj : Instance Title * option Q) : gmap string Json :=
  match get_serializer_class request with
  | TitlesSerializer => TitlesSerializer_data obj
  | TitleCreateSerializer => TitleCreateSerializer_data obj.1
  end.

Definition TitleViewSet_queryset (s : Store)
    : list (Instance Title * option Q) :=
  Orm.annotate_rating s.

Definition TitleViewSet_filter_queryset (request : Request)
    (queryset : list (Instance Title * option Q))
    : list (Instance Title * option Q) :=
  filter (fun obj => TitleFilter request obj.1 = true) queryset.

Definition TitleViewSet_list (request : Request) : M Response :=
  queryset <-
    reads (fun s =>
             TitleViewSet_filter_queryset request (TitleViewSet_queryset s)) ;;
  ret (mkResponse
         (ObjectList (TitleViewSet_serializer_data request <$> queryset))
         HTTP_200_OK).

Definition TitleViewSet_retrieve (request : Request) (kwargs : Kwargs)
    : M Response :=
  instance <-
    Orm.get_object_or_404
      (fun s => TitleViewSet_filter_queryset request (TitleViewSet_queryset s))
      (fun obj => Some (pk obj.1) = kwargs !! "pk") ;;
  check_permissions request [IsAdminOrReadOnly_on_title request instance.1] ;;;
  ret (mkResponse (Object (TitleViewSet_serializer_data request instance))
         HTTP_200_OK).

(** *** UserViewSet *)

(** [setattr(instance, attr, value)] on a user; an attribute that is not
    a column lives on the Python object only and is not stored. *)
Definition setattr (instance : Instance User) (attr : string)
    (value : Value) : Instance User :=
  let u := row instance in
  match value with
  | VStr v =>
      if decide (attr = "username") then
        (pk instance, mkUser v (email u) (role u) (is_active u))
      else if decide (attr = "email") then
        (pk instance, mkUser (username u) v (role u) (is_active u))
      else instance
  | VRole v =>
      if decide (attr = "role") then
        (pk instance, mkUser (username u) (email u) v (is_active u))
      else instance
  | VBool v =>
      if decide (attr = "is_active") then
        (pk instance, mkUser (username u) (email u) (role u) v)
      else instance
  | _ => instance
  end.

(** [serializer.save] with keyword arguments, on a serializer bound to
    [instance], as [ModelSerializer] does it: the keyword arguments
    override the validated data, every item is set on the instance, and
    the instance is saved. *)
Definition UserSerializer_save (instance : Instance User)
    (validated_data kwargs : gmap string Value) : M (Instance User) :=
  let validated_data := kwargs ∪ validated_data in
  let instance :=
    map_fold (fun attr value obj => setattr obj attr value)
      instance validated_data in
  Orm.save_user instance ;;;
  ret instance.

Definition me (request : Request) (instance : Instance User) : M Response :=
  if decide (method request = "GET") then
    ret (mkResponse (Object (UserSerializer_data instance)) HTTP_200_OK)
  else
    validated_data <-
      is_valid (UserSerializer_run_validation instance (data request)) ;;
    instance <-
      UserSerializer_save instance validated_data
        (<["role" := VRole (role (row instance))]>
           {["partial" := VBool true]}) ;;
    ret (mkResponse (Object (UserSerializer_data instance)) HTTP_200_OK).

(** The methods for which the router binds [me] as the handler:
    [methods=('get', 'patch')], and HEAD, which the router binds to the
    handler of GET. *)
Definition me_methods : list string := ["GET"; "PATCH"; "HEAD"].

(** The [me] route: its permission class, [IsAuthenticated], is checked
    first; then the handler bound to the method of the request runs.
    OPTIONS is answered by the framework, and a method with no handler
    (POST, PUT, DELETE, ...) is answered 405. *)
Definition UserViewSet_me (request : Request) : Store -> Response * Store :=
  dispatch (
    check_permissions request [IsAuthenticated request] ;;;
    if bool_decide (method request ∈ me_methods) then
      match user request with
      | Some instance => me request instance
      | None => raise (Uncaught "AttributeError")
      end
    else if decide (method request = "OPTIONS") then ret (options request)
    else ret (http_method_not_allowed request)).

(** *** SignUpVeiwSet *)

Definition SignUpVeiwSet_post (request : Request) : M Response :=
  serializer <- is_valid (SignUpSerializer_run_validation (data request)) ;;
  user <- (fun s => let '(user, s') := SignUpSerializer_save serializer s in
                    (Ok user, s')) ;;
  send_confirmation_code (clock request) user ;;;
  (if negb (Py.truth user) && is_active (row user)
   then Orm.delete_user (pk user)
   else ret tt) ;;;
  ret (mkResponse (Object (SignUpSerializer_data user)) HTTP_200_OK).

(** *** TokenViewSet *)

Definition TokenViewSet_post (request : Request) : M Response :=
  serializer <- is_valid (TokenSerializer_run_validation (data request)) ;;
  let username' := token_username serializer in
  let confirmation_code := token_confirmation_code serializer in
  user <-
    Orm.get_object_or_404 (fun s => Orm.objects (users s))
      (fun u => username (row u) = username') ;;
  if negb (check_token user (clock request) confirmation_code) then
    ret (mkResponse NoData HTTP_400_BAD_REQUEST)
  else
    let token := access_token_for_user user (clock request) in
    ret (mkResponse (Object {["token" := JValue (VStr token)]}) HTTP_200_OK).

End Views.

Section ScopedViews.

Context `{Project}.

Import Drf.

Definition setattr_review (instance : Instance Review) (attr : string)
    (value : Value) : Instance Review :=
  let r := row instance in
  match value with
  | VStr v =>
      if decide (attr = "text") then
        (pk instance,
         mkReview (review_title r) (review_author r) v (review_score r))
      else instance
  | VInt v =>
      if decide (attr = "score") then
        (pk instance,
         mkReview (review_title r) (review_author r) (review_text r) v)
      else instance
  | _ => instance
  end.

Definition setattr_comment (instance : Instance Comment) (attr : string)
    (value : Value) : Instance Comment :=
  let c := row instance in
  match value with
  | VStr v =>
      if decide (attr = "text") then
        (pk instance, mkComment (comment_review c) (comment_author c) v)
      else instance
  | _ => instance
  end.

(** *** ReviewViewSet *)

Definition ReviewViewSet_permissions (request : Request) : list bool :=
  [IsAuthenticatedOrReadOnly request;
   IsAdminOrAuthorOrReadOnly_has_permission request].

Definition ReviewViewSet_get_title (kwargs : Kwargs) : M (Instance Title) :=
  title <-
    Orm.get_object_or_404 (fun s => Orm.objects (titles s))
      (fun t => Some (pk t) = kwargs !! "title_id") ;;
  ret title.

Definition ReviewViewSet_get_queryset (kwargs : Kwargs)
    : M (list (Instance Review)) :=
  title <-
    Orm.get_object_or_404 (fun s => Orm.objects (titles s))
      (fun t => Some (pk t) = kwargs !! "title_id") ;;
  reads (fun s =>
           filter (fun r : Instance Review => review_title (row r) = pk title)
             (Orm.objects (reviews s))).

Definition ReviewViewSet_perform_create (request : Request)
    (kwargs : Kwargs) (validated_data : ReviewData) : M (Instance Review) :=
  let author := user request in
  title <-
    Orm.get_object_or_404 (fun s => Orm.objects (titles s))
      (fun t => Some (pk t) = kwargs !! "title_id") ;;
  match author with
  | Some author =>
      Orm.create_review
        (mkReview (pk title) (pk author)
           (data_text validated_data) (data_score validated_data))
  | None => raise (Uncaught "ValueError")
  end.

(** [GenericAPIView.get_object] over [get_queryset]. *)
Definition ReviewViewSet_get_object (request : Request) (kwargs : Kwargs)
    : M (Instance Review) :=
  queryset <- ReviewViewSet_get_queryset kwargs ;;
  obj <-
    Orm.get_object_or_404 (fun _ => queryset)
      (fun r => Some (pk r) = kwargs !! "pk") ;;
  check_permissions request
    [true; IsAdminOrAuthorOrReadOnly_on_review request obj] ;;;
  ret obj.

Definition ReviewViewSet_update (partial : bool) (request : Request)
    (kwargs : Kwargs) : M Response :=
  instance <- ReviewViewSet_get_object request kwargs ;;
  validated_data <-
    is_valid
      (ReviewSerializer_validate_update partial instance request kwargs) ;;
  let instance :=
    map_fold (fun attr value obj => setattr_review obj attr value)
      instance validated_data in
  Orm.save_review instance ;;;
  ret (mkResponse (Object (ReviewSerializer_data instance)) HTTP_200_OK).

(** The handlers of [ModelViewSet], by action. *)
Definition ReviewViewSet_handler (action : Action) (request : Request)
    (kwargs : Kwargs) : M Response :=
  match action with
  | list_action =>
      queryset <- ReviewViewSet_get_queryset kwargs ;;
      ret (mkResponse (ObjectList (ReviewSerializer_data <$> queryset))
             HTTP_200_OK)
  | create =>
      validated_data <-
        is_valid (ReviewSerializer_validate_create request kwargs) ;;
      instance <- ReviewViewSet_perform_create request kwargs validated_data ;;
      ret (mkResponse (Object (ReviewSerializer_data instance))
             HTTP_201_CREATED)
  | retrieve =>
      instance <- ReviewViewSet_get_object request kwargs ;;
      ret (mkResponse (Object (ReviewSerializer_data instance)) HTTP_200_OK)
  | update => ReviewViewSet_update false request kwargs
  | partial_update => ReviewViewSet_update true request kwargs
  | destroy =>
      instance <- ReviewViewSet_get_object request kwargs ;;
      Orm.delete_review (pk instance) ;;;
      ret (mkResponse NoData HTTP_204_NO_CONTENT)
  end.

(** A request to a review endpoint: permission checks, then the handler. *)
Definition ReviewViewSet_view (action : Action) (request : Request)
    (kwargs : Kwargs) : Store -> Response * Store :=
  dispatch (
    check_permissions request (ReviewViewSet_permissions request) ;;;
    ReviewViewSet_handler action request kwargs).

(** *** CommentViewSet *)

Definition CommentViewSet_permissions (request : Request) : list bool :=
  [IsAuthenticatedOrReadOnly request;
   IsAdminOrAuthorOrReadOnly_has_permission request].

Definition CommentViewSet_get_review (kwargs : Kwargs)
    : M (Instance Review) :=
  review <-
    Orm.get_object_or_404 (fun s => Orm.objects (reviews s))
      (fun r => Some (pk r) = kwargs !! "review_id") ;;
  ret review.

Definition CommentViewSet_get_queryset (kwargs : Kwargs)
    : M (list (Instance Comment)) :=
  review <- CommentViewSet_get_review kwargs ;;
  reads (fun s =>
           filter
             (fun c : Instance Comment => comment_review (row c) = pk review)
             (Orm.objects (comments s))).

Definition CommentViewSet_perform_create (request : Request)
    (kwargs : Kwargs) (validated_data : string) : M (Instance Comment) :=
  let author := user request in
  review <- CommentViewSet_get_review kwargs ;;
  match author with
  | Some author =>
      Orm.create_comment (mkComment (pk review) (pk author) validated_data)
  | None => raise (Uncaught "ValueError")
  end.

Definition CommentViewSet_get_object (request : Request) (kwargs : Kwargs)
    : M (Instance Comment) :=
  queryset <- CommentViewSet_get_queryset kwargs ;;
  obj <-
    Orm.get_object_or_404 (fun _ => queryset)
      (fun c => Some (pk c) = kwargs !! "pk") ;;
  check_permissions request
    [true; IsAdminOrAuthorOrReadOnly_on_comment request obj] ;;;
  ret obj.

Definition CommentViewSet_update (partial : bool) (request : Request)
    (kwargs : Kwargs) : M Response :=
  instance <- CommentViewSet_get_object request kwargs ;;
  validated_data <-
    is_valid
      (CommentSerializer_validate_update partial instance request kwargs) ;;
  let instance :=
    map_fold (fun attr value obj => setattr_comment obj attr value)
      instance validated_data in
  Orm.save_comment instance ;;;
  ret (mkResponse (Object (CommentSerializer_data instance)) HTTP_200_OK).

Definition CommentViewSet_handler (action : Action) (request : Request)
    (kwargs : Kwargs) : M Response :=
  match action with
  | list_action =>
      queryset <- CommentViewSet_get_queryset kwargs ;;
      ret (mkResponse (ObjectList (CommentSerializer_data <$> queryset))
             HTTP_200_OK)
  | create =>
      validated_data <-
        is_valid (CommentSerializer_validate_create request kwargs) ;;
      instance <- CommentViewSet_perform_create request kwargs validated_data ;;
      ret (mkResponse (Object (CommentSerializer_data instance))
             HTTP_201_CREATED)
  | retrieve =>
      instance <- CommentViewSet_get_object request kwargs ;;
      ret (mkResponse (Object (CommentSerializer_data instance)) HTTP_200_OK)
  | update => CommentViewSet_update false request kwargs
  | partial_update => CommentViewSet_update true request kwargs
  | destroy =>
      instance <- CommentViewSet_get_object request kwargs ;;
      Orm.delete_comment (pk instance) ;;;
      ret (mkResponse NoData HTTP_204_NO_CONTENT)
  end.

Definition CommentViewSet_view (action : Action) (request : Request)
    (kwargs : Kwargs) : Store -> Response * Store :=
  dispatch (
    check_permissions request (CommentViewSet_permissions request) ;;;
    CommentViewSet_handler action request kwargs).

End ScopedViews.

(** ** Notions the properties are stated with *)

(** The scores of the reviews related to a title. *)
Definition related_scores (s : Store) (title_pk : Z) : list Z :=
  (fun r : Instance Review => review_score (row r))
    <$> filter (fun r : Instance Review => review_title (row r) = title_pk)
          (Orm.objects (reviews s)).

(** The arithmetic mean in the spec's words: the sum of the scores over
    their number, and nothing for no scores. *)
Definition arithmetic_mean (scores : list Z) : option Q :=
  match scores with
  | [] => None
  | _ => Some (foldr Z.add 0 scores # Pos.of_nat (length scores))
  end.

Definition rating_json (rating : option Q) : Json :=
  match rating with
  | Some q => JNumber q
  | None => JNull
  end.

(** The method names a request can carry (RFC 9110 and PATCH). *)
Definition HTTP_METHODS : list string :=
  ["GET"; "HEAD"; "POST"; "PUT"; "DELETE"; "CONNECT"; "OPTIONS"; "TRACE";
   "PATCH"].

(** The slices of ["GET"]. *)
Definition slices_of_GET : list string :=
  [""; "G"; "E"; "T"; "GE"; "ET"; "GET"].

(** The choice of serializer in the spec's words: by inequality with
    ["GET"]. *)
Definition get_serializer_class_by_inequality (request : Request)
    : SerializerClass :=
  if decide (method request <> "GET") then TitleCreateSerializer
  else TitlesSerializer.

(** The access token a response carries, if any. *)
Definition issued_token (response : Response) : option string :=
  match response_data response with
  | Object fields =>
      match fields !! "token" with
      | Some (JValue (VStr token)) => Some token
      | _ => None
      end
  | _ => None
  end.

(** Usernames are unique among the stored users. *)
Definition unique_usernames (s : Store) : Prop :=
  map_Forall
    (fun i u =>
       map_Forall (fun j v => username u = username v -> i = j) (users s))
    (users s).

(** The requesting user, when there is one, is a stored user. *)
Definition authenticated_in (s : Store) (request : Request) : Prop :=
  match user request with
  | Some u => users s !! pk u = Some (row u)
  | None => True
  end.

(** Every review references a stored title and a stored author, and every
    comment a stored review and a stored author. *)
Definition referential_integrity (s : Store) : Prop :=
  map_Forall
    (fun _ r =>
       is_Some (titles s !! review_title r)
       /\ is_Some (users s !! review_author r))
    (reviews s)
  /\ map_Forall
       (fun _ c =>
          is_Some (reviews s !! comment_review c)
          /\ is_Some (users s !! comment_author c))
       (comments s).

(** The value a validated dictionary holds for a column, read at the
    column's type. *)
Definition submitted_str (validated_data : gmap string Value) (attr : string)
    (current : string) : string :=
  match validated_data !! attr with
  | Some (VStr v) => v
  | _ => current
  end.

Definition submitted_bool (validated_data : gmap string Value) (attr : string)
    (current : bool) : bool :=
  match validated_data !! attr with
  | Some (VBool v) => v
  | _ => current
  end.

Definition submitted_role (validated_data : gmap string Value)
    (current : Role) : Role :=
  match validated_data !! "role" with
  | Some (VRole v) => v
  | _ => current
  end.

(** ** A sample project

    One concrete choice of serializers, permissions and oracles, on which
    the properties are exercised. *)

Module Sample.

Definition field_str (payload : Payload) (name : string) : option string :=
  match payload !! name with
  | Some (VStr v) => Some v
  | _ => None
  end.

Definition required : list string := ["This field is required."].

Definition signup_validation (payload : Payload) (s : Store)
    : Errors + SignUpData :=
  match field_str payload "username", field_str payload "email" with
  | Some u, Some e =>
      if decide (u = "me") then inl {["username" := ["Invalid username."]]}
      else inr (mkSignUpData u e)
  | None, _ => inl {["username" := required]}
  | _, None => inl {["email" := required]}
  end.

Definition signup_save (d : SignUpData) (s : Store)
    : Instance User * Store :=
  match filter (fun u : Instance User =>
                  username (row u) = signup_username d)
          (Orm.objects (users s)) with
  | existing :: _ => (existing, s)
  | [] =>
      let id := Orm.next_pk (users s) in
      let u := mkUser (signup_username d) (signup_email d) RoleUser true in
      ((id, u), set_users (insert id u) s)
  end.

Definition token_validation (payload : Payload) (s : Store)
    : Errors + TokenData :=
  match field_str payload "username",
        field_str payload "confirmation_code" with
  | Some u, Some c => inr (mkTokenData u c)
  | None, _ => inl {["username" := required]}
  | _, None => inl {["confirmation_code" := required]}
  end.

Definition user_json (u : Instance User) : gmap string Json :=
  {["username" := JValue (VStr (username (row u)));
    "email" := JValue (VStr (email (row u)));
    "role" := JValue (VRole (role (row u)))]}.

Definition review_json (r : Instance Review) : gmap string Json :=
  {["id" := JValue (VInt (pk r));
    "text" := JValue (VStr (review_text (row r)));
    "score" := JValue (VInt (review_score (row r)))]}.

Definition comment_json (c : Instance Comment) : gmap string Json :=
  {["id" := JValue (VInt (pk c));
    "text" := JValue (VStr (comment_text (row c)))]}.

Definition title_json (t : Instance Title) : gmap string Json :=
  {["id" := JValue (VInt (pk t));
    "name" := JValue (VStr (title_name (row t)))]}.

Definition review_validation (request : Request) (kwargs : Kwargs)
    (s : Store) : Errors + ReviewData :=
  match field_str (data request) "text", data request !! "score" with
  | Some t, Some (VInt n) =>
      if decide (1 <= n <= 10) then inr (mkReviewData t n)
      else inl {["score" := ["Ensure this value is between 1 and 10."]]}
  | None, _ => inl {["text" := required]}
  | _, _ => inl {["score" := required]}
  end.

Definition comment_validation (request : Request) (kwargs : Kwargs)
    (s : Store) : Errors + string :=
  match field_str (data request) "text" with
  | Some t => inr t
  | None => inl {["text" := required]}
  end.

Definition staff_or_author (request : Request) (author : Z) : bool :=
  bool_decide (method request ∈ Drf.SAFE_METHODS)
  || match user request with
     | Some u =>
         bool_decide (pk u = author)
         || match role (row u) with RoleUser => false | _ => true end
     | None => false
     end.

(** The token generator keeps no state: a code is a digest of the user's
    row, recomputed and compared on every check. *)
Definition digest (u : Instance User) : string :=
  username (row u) ++ ":" ++ email (row u).

#[local] Instance project : Project := {|
  make_token u now := digest u;
  check_token u now code := bool_decide (code = digest u);
  access_token_for_user u now := "jwt." ++ username (row u);
  EMAIL_YAMDB := "yamdb@example.com";
  TitleFilter request t := true;
  IsAdminOrReadOnly_on_title request t := true;
  IsAdminOrAuthorOrReadOnly_has_permission request := true;
  IsAdminOrAuthorOrReadOnly_on_review request r :=
    staff_or_author request (review_author (row r));
  IsAdminOrAuthorOrReadOnly_on_comment request c :=
    staff_or_author request (comment_author (row c));
  TitlesSerializer_fields := title_json;
  TitleCreateSerializer_data := title_json;
  SignUpSerializer_run_validation := signup_validation;
  SignUpSerializer_save := signup_save;
  SignUpSerializer_data := user_json;
  TokenSerializer_run_validation := token_validation;
  UserSerializer_run_validation instance payload s := inr payload;
  UserSerializer_data := user_json;
  ReviewSerializer_validate_create := review_validation;
  ReviewSerializer_validate_update partial instance request kwargs s :=
    inr (data request);
  ReviewSerializer_data := review_json;
  CommentSerializer_validate_create := comment_validation;
  CommentSerializer_validate_update partial instance request kwargs s :=
    inr (data request);
  CommentSerializer_data := comment_json
|}.

Definition alice : Instance User :=
  (1, mkUser "alice" "alice@example.com" RoleUser true).
Definition bob : Instance User :=
  (2, mkUser "bob" "bob@example.com" RoleModerator true).

Definition store : Store := {|
  users := {[1 := row alice; 2 := row bob]};
  titles := {[10 := mkTitle "Solaris"; 11 := mkTitle "Stalker"]};
  reviews := {[100 := mkReview 10 1 "Slow and great" 9;
               101 := mkReview 10 2 "Too slow" 4]};
  comments := {[1000 := mkComment 100 2 "Agreed"]};
  outbox := []
|}.

Definition get_request : Request := mkRequest "GET" None ∅ 0.

Definition token_request : Request :=
  mkRequest "POST" None
    {["username" := VStr "alice";
      "confirmation_code" := VStr "alice:alice@example.com"]} 0.

Definition bad_token_request : Request :=
  mkRequest "POST" None {["username" := VStr "alice"]} 0.

Definition signup_request : Request :=
  mkRequest "POST" None
    {["username" := VStr "carol"; "email" := VStr "carol@example.com"]} 0.

Definition bad_signup_request : Request :=
  mkRequest "POST" None {["username" := VStr "me"; "email" := VStr "x"]} 0.

Definition patch_me_request : Request :=
  mkRequest "PATCH" (Some alice)
    {["role" := VRole RoleAdmin; "email" := VStr "alice@yamdb.example"]} 0.

Definition anonymous_review_request : Request :=
  mkRequest "POST" None {["text" := VStr "Fine"; "score" := VInt 7]} 0.

Definition review_request : Request :=
  mkRequest "POST" (Some alice)
    {["text" := VStr "Fine"; "score" := VInt 7]} 0.

Definition comment_request : Request :=
  mkRequest "POST" (Some bob) {["text" := VStr "Indeed"]} 0.

End Sample.

(** ** Further notions *)

(** The answer to a request that a permission class refuses: 403 for an
    authenticated user, 401 otherwise. *)
Definition refusal (request : Request) : Response :=
  Drf.exception_handler
    (if Drf.is_authenticated request then PermissionDenied
     else NotAuthenticated).

(** The actions that address one object by its key. *)
Definition detail_action (action : Drf.Action) : bool :=
  match action with
  | Drf.retrieve | Drf.update | Drf.partial_update | Drf.destroy => true
  | _ => false
  end.

(** The actions that read. *)
Definition safe_action (action : Drf.Action) : bool :=
  match action with
  | Drf.list_action | Drf.retrieve => true
  | _ => false
  end.


(** ** Genres and categories *)

(** Modelled from the spec: a row of [Genre] or [Category] in
    [reviews.models], a named, slugged taxonomy entry. *)
Record Taxon := mkTaxon {
  taxon_name : string;
  taxon_slug : string
}.

Section CustomViewSet.

(** What [GenreViewSet] and [CategoryViewSet] import: the permission
    class [IsAdminOrReadOnly], their serializer, and the test behind the
    [icontains] lookup, which is the database's. *)
Variable IsAdminOrReadOnly_has_permission : Request -> bool.
Variable IsAdminOrReadOnly_on_taxon : Request -> Instance Taxon -> bool.
Variable Serializer_run_validation :
  Payload -> gmap Z Taxon -> Errors + Taxon.
Variable Serializer_data : Instance Taxon -> gmap string Json.
Variable icontains : string -> string -> bool.

(** [filters.SearchFilter] with [search_fields = ('name',)]: a row stays
    when its name contains every search term of the request. *)
Definition SearchFilter (terms : list string)
    (queryset : list (Instance Taxon)) : list (Instance Taxon) :=
  filter
    (fun obj : Instance Taxon =>
       forallb (icontains (taxon_name (row obj))) terms = true)
    queryset.

(** [GenericAPIView.get_object] with [lookup_field = 'slug']: the row
    is looked up by the slug of the URL in the filtered queryset. *)
Definition CustomViewSet_get_object (request : Request)
    (terms : list string) (slug : option string) (table : gmap Z Taxon)
    : result (Instance Taxon) :=
  match filter (fun obj : Instance Taxon => Some (taxon_slug (row obj)) = slug)
          (SearchFilter terms (Orm.objects table)) with
  | [] => Raise Http404
  | [obj] =>
      if IsAdminOrReadOnly_on_taxon request obj then Ok obj
      else Raise (if Drf.is_authenticated request then PermissionDenied
                  else NotAuthenticated)
  | _ => Raise (Uncaught "MultipleObjectsReturned")
  end.

Definition method_not_allowed (request : Request) : Response :=
  Drf.http_method_not_allowed request.

(** [CustomViewSet] mixes in create, list and destroy and nothing else:
    the other actions have no handler.  The handlers act on the table of
    genres, or of categories; what a deletion does to the titles that
    referred to the row is left to the models. *)
Definition CustomViewSet_handler (action : Drf.Action) (request : Request)
    (terms : list string) (slug : option string) (table : gmap Z Taxon)
    : result Response * gmap Z Taxon :=
  match action with
  | Drf.list_action =>
      (Ok (mkResponse
             (ObjectList
                (Serializer_data <$> SearchFilter terms (Orm.objects table)))
             Drf.HTTP_200_OK), table)
  | Drf.create =>
      match Serializer_run_validation (data request) table with
      | inl errors => (Raise (ValidationError errors), table)
      | inr taxon =>
          let id := Orm.next_pk table in
          (Ok (mkResponse (Object (Serializer_data (id, taxon)))
                 Drf.HTTP_201_CREATED),
           <[id := taxon]> table)
      end
  | Drf.destroy =>
      match CustomViewSet_get_object request terms slug table with
      | Ok instance =>
          (Ok (mkResponse NoData Drf.HTTP_204_NO_CONTENT),
           delete (pk instance) table)
      | Raise e => (Raise e, table)
      end
  | _ => (Ok (method_not_allowed request), table)
  end.

(** A request to a genre or category endpoint: the permission class, then
    the handler. *)
Definition CustomViewSet_view (action : Drf.Action) (request : Request)
    (terms : list string) (slug : option string) (table : gmap Z Taxon)
    : Response * gmap Z Taxon :=
  if IsAdminOrReadOnly_has_permission request then
    match CustomViewSet_handler action request terms slug table with
    | (Ok response, table') => (response, table')
    | (Raise e, table') => (Drf.exception_handler e, table')
    end
  else (refusal request, table).

End CustomViewSet.

(** ** Further sample data *)

Module Scenario.

Definition carol : Instance User :=
  (3, mkUser "carol" "carol@example.com" RoleUser true).

Definition carol_token_request : Request :=
  mkRequest "POST" None
    {["username" := VStr "carol";
      "confirmation_code" := VStr "carol:carol@example.com"]} 5.

Definition unknown_token_request : Request :=
  mkRequest "POST" None
    {["username" := VStr "nobody"; "confirmation_code" := VStr "x"]} 0.

Definition get_me_request : Request :=
  mkRequest "GET" (Some Sample.alice) {["role" := VRole RoleAdmin]} 0.

Definition patch_role_request : Request :=
  mkRequest "PATCH" (Some Sample.alice) {["role" := VRole RoleAdmin]} 0.

(** alice, a plain user, edits the review bob wrote. *)
Definition patch_review_request : Request :=
  mkRequest "PATCH" (Some Sample.alice) {["text" := VStr "Edited"]} 0.

Definition genres : gmap Z Taxon :=
  {[1 := mkTaxon "Drama" "drama";
    2 := mkTaxon "Science fiction" "sci-fi";
    3 := mkTaxon "Fiction" "fiction"]}.

Definition delete_request : Request :=
  mkRequest "DELETE" (Some Sample.bob) ∅ 0.

(** Containment without regard to the case of the letters A to Z, the
    test SQLite's LIKE makes for [icontains]. *)
Definition lower (c : ascii) : ascii :=
  let n := nat_of_ascii c in
  if (Nat.leb 65 n && Nat.leb n 90)%bool then ascii_of_nat (n + 32)%nat
  else c.

Fixpoint lower_string (s : string) : string :=
  match s with
  | EmptyString => EmptyString
  | String c rest => String (lower c) (lower_string rest)
  end.

Definition contains (name term : string) : bool :=
  Py.str_in (lower_string term) (lower_string name).

Definition taxon_json (t : Instance Taxon) : gmap string Json :=
  {["name" := JValue (VStr (taxon_name (row t)));
    "slug" := JValue (VStr (taxon_slug (row t)))]}.

(** Reading is open to all, writing to administrators. *)
Definition admin_or_read_only (request : Request) : bool :=
  bool_decide (method request ∈ Drf.SAFE_METHODS)
  || match user request with
     | Some u => match role (row u) with RoleAdmin => true | _ => false end
     | None => false
     end.

Definition genre_list :=
  CustomViewSet_view admin_or_read_only
    (fun request _ => admin_or_read_only request)
    (fun _ _ => inl ∅) taxon_json contains Drf.list_action.

Definition genre_view :=
  CustomViewSet_view (fun _ => true) (fun _ _ => true)
    (fun _ _ => inl ∅) (fun _ => ∅) contains.

End Scenario.

(** * Properties *)

(** ** Membership on strings and the choice of serializer *)

Section StringMembership.

Lemma prefix_split (needle hay : string) :
  String.prefix needle hay = true <-> exists b, hay = needle ++ b.
Proof.
  revert hay. induction needle as [|c n IH]; intros h; simpl.
  - split; [intros _; by exists h | by destruct h].
  - destruct h as [|d h]; simpl.
    + split; [done | intros [b Hb]; discriminate].
    + destruct (ascii_dec c d) as [->|Hne].
      * rewrite IH. split; intros [b Hb]; exists b;
          [by rewrite Hb | by injection Hb].
      * split; [done | intros [b Hb]; injection Hb; congruence].
Qed.

(** [str_in] is the slice relation. *)
Lemma str_in_slice (needle hay : string) :
  Py.str_in needle hay = true <-> exists a b, hay = a ++ needle ++ b.
Proof.
  induction hay as [|d h IH]; cbn [Py.str_in].
  - rewrite orb_false_r, prefix_split. split.
    + intros [b Hb]. by exists "", b.
    + intros [a [b Hab]]. destruct a; [by exists b | discriminate].
  - rewrite orb_true_iff, IH, prefix_split. split.
    + intros [[b Hb] | [a [b Hab]]];
        [by exists "", b | exists (String d a), b; simpl; by rewrite Hab].
    + intros [a [b Hab]]. destruct a as [|c a]; simpl in Hab.
      * left. by exists b.
      * right. injection Hab as -> ->. by exists a, b.
Qed.

(** The strings the test [method in ('GET')] accepts are exactly the
    seven slices of ["GET"]. *)
Lemma str_in_GET (m : string) :
  Py.str_in m "GET" = true <-> m ∈ slices_of_GET.
Proof.
  split.
  - intros Hin. apply str_in_slice in Hin as [a [b Hab]].
    unfold slices_of_GET.
    destruct a as [|a1 [|a2 [|a3 [|a4 a]]]]; simpl in Hab;
    destruct m as [|m1 [|m2 [|m3 [|m4 m]]]]; simpl in Hab;
    destruct b as [|b1 [|b2 [|b3 [|b4 b]]]]; simpl in Hab;
    try discriminate; injection Hab; intros; subst;
    rewrite !elem_of_cons; auto 10.
  - unfold slices_of_GET. intros Hm.
    repeat (apply elem_of_cons in Hm as [-> | Hm]; [reflexivity |]).
    by apply elem_of_nil in Hm.
Qed.

(** Beyond method names the two tests part ways: a proper slice of
    ["GET"] differs from ["GET"] and still selects [TitlesSerializer]. *)
Lemma get_serializer_class_on_slice :
  get_serializer_class (mkRequest "GE" None ∅ 0) = TitlesSerializer
  /\ get_serializer_class_by_inequality (mkRequest "GE" None ∅ 0)
     = TitleCreateSerializer.
Proof. split; reflexivity. Qed.

(** The two choices agree on every string but the six proper slices of
    ["GET"]. *)
Lemma get_serializer_class_agreement (request : Request) :
  get_serializer_class request = get_serializer_class_by_inequality request
  <-> method request ∉ [""; "G"; "E"; "T"; "GE"; "ET"].
Proof.
  unfold get_serializer_class, get_serializer_class_by_inequality.
  destruct (Py.str_in (method request) "GET") eqn:Hin; cbn [negb].
  - apply str_in_GET in Hin. unfold slices_of_GET in Hin.
    rewrite !elem_of_cons in Hin.
    destruct Hin as [-> | [-> | [-> | [-> | [-> | [-> | [-> | Hin]]]]]]];
      try (by apply elem_of_nil in Hin);
      case_decide as Hd; try (by destruct Hd);
      split; try discriminate; try reflexivity.
    + intros Hno. exfalso. apply Hno. rewrite !elem_of_cons. auto 10.
    + intros Hno. exfalso. apply Hno. rewrite !elem_of_cons. auto 10.
    + intros Hno. exfalso. apply Hno. rewrite !elem_of_cons. auto 10.
    + intros Hno. exfalso. apply Hno. rewrite !elem_of_cons. auto 10.
    + intros Hno. exfalso. apply Hno. rewrite !elem_of_cons. auto 10.
    + intros Hno. exfalso. apply Hno. rewrite !elem_of_cons. auto 10.
    + intros _. rewrite !not_elem_of_cons.
      repeat split; first [discriminate | apply not_elem_of_nil].
  - assert (Hout : method request ∉ slices_of_GET).
    { intros Hm. apply str_in_GET in Hm. congruence. }
    unfold slices_of_GET in Hout. rewrite !not_elem_of_cons in Hout.
    rewrite !not_elem_of_cons.
    split; [intros _; tauto |].
    intros _. rewrite decide_True; [done | tauto].
Qed.

(** C10: for every HTTP method name the substring test
    [not method in ('GET')] of [TitleViewSet.get_serializer_class] agrees
    with inequality with ['GET']: GET selects [TitlesSerializer] and any
    other method selects [TitleCreateSerializer]. *)
Theorem get_serializer_class_by_method (request : Request) :
  method request ∈ HTTP_METHODS ->
  negb (Py.str_in (method request) "GET")
    = bool_decide (method request <> "GET")
  /\ get_serializer_class request
     = get_serializer_class_by_inequality request
  /\ (method request = "GET" ->
      get_serializer_class request = TitlesSerializer)
  /\ (method request <> "GET" ->
      get_serializer_class request = TitleCreateSerializer).
Proof.
  destruct request as [m u d c]. unfold HTTP_METHODS. cbn [method].
  intros Hm.
  unfold get_serializer_class, get_serializer_class_by_inequality.
  cbn [method].
  repeat (apply elem_of_cons in Hm as [-> | Hm];
          [repeat split; try reflexivity; intros Hc;
             first [discriminate Hc | by destruct Hc] |]).
  by apply elem_of_nil in Hm.
Qed.

Lemma get_serializer_class_by_method_witness :
  "PATCH" ∈ HTTP_METHODS
  /\ get_serializer_class (mkRequest "PATCH" None ∅ 0)
     = get_serializer_class_by_inequality (mkRequest "PATCH" None ∅ 0).
Proof.
  assert (Hm : "PATCH" ∈ HTTP_METHODS)
    by (unfold HTTP_METHODS; rewrite !elem_of_cons; auto 12).
  split; [exact Hm |].
  exact (proj1 (proj2
    (get_serializer_class_by_method (mkRequest "PATCH" None ∅ 0) Hm))).
Defined.

End StringMembership.

Local Open Scope list_scope.

(** ** Tables and lookups *)

Section Tables.
Context {A : Type}.
Implicit Types (l : list (Instance A)) (m : gmap Z A).

Lemma filter_none {B} (P : B -> Prop) `{!forall x, Decision (P x)}
    (l : list B) :
  (forall x, x ∈ l -> ~ P x) -> filter P l = [].
Proof.
  induction l as [|y l IH]; intros Hno; [done |].
  rewrite filter_cons_False by (apply Hno; left).
  apply IH. intros x Hx. apply Hno. by right.
Qed.

Lemma filter_all {B} (P : B -> Prop) `{!forall x, Decision (P x)}
    (l : list B) :
  (forall x, x ∈ l -> P x) -> filter P l = l.
Proof.
  induction l as [|y l IH]; intros Hall; [done |].
  rewrite filter_cons_True by (apply Hall; left).
  f_equal. apply IH. intros x Hx. apply Hall. by right.
Qed.

Lemma filter_fmap {B C} (f : B -> C) (P : C -> Prop)
    `{!forall x, Decision (P x)} (l : list B) :
  filter P (f <$> l) = f <$> filter (fun x => P (f x)) l.
Proof.
  induction l as [|y l IH]; [done |].
  rewrite fmap_cons, !filter_cons, IH.
  by destruct (decide (P (f y))).
Qed.

Lemma filter_single {B} (P : B -> Prop) `{!forall x, Decision (P x)}
    (l : list B) x :
  NoDup l -> x ∈ l -> P x -> (forall y, y ∈ l -> P y -> y = x) ->
  filter P l = [x].
Proof.
  induction 1 as [|y l Hy Hnd IH]; intros Hx HP Huniq.
  - by apply elem_of_nil in Hx.
  - apply elem_of_cons in Hx as [-> | Hx].
    + rewrite filter_cons_True by done. f_equal.
      apply filter_none. intros z Hz HPz.
      assert (z = y) by (apply Huniq; [by right | done]). by subst.
    + rewrite filter_cons_False.
      * apply IH; [done | done |]. intros z Hz. apply Huniq. by right.
      * intros HPy. assert (y = x) by (apply Huniq; [by left | done]). by subst.
Qed.

(** A lookup by primary key finds the row stored under it, and only it. *)
Lemma objects_by_pk m (o : option Z) :
  filter (fun t : Instance A => Some (pk t) = o) (Orm.objects m)
  = match o with
    | Some id => match m !! id with Some x => [(id, x)] | None => [] end
    | None => []
    end.
Proof.
  unfold Orm.objects. destruct o as [id|].
  - destruct (m !! id) as [x|] eqn:Hm.
    + apply filter_single.
      * apply NoDup_map_to_list.
      * by apply elem_of_map_to_list.
      * done.
      * intros [k y] Hy Hk. apply elem_of_map_to_list in Hy.
        unfold pk in Hk. simpl in Hk. injection Hk as ->. congruence.
    + apply filter_none. intros [k y] Hy Hk. apply elem_of_map_to_list in Hy.
      unfold pk in Hk. simpl in Hk. injection Hk as ->. congruence.
  - by apply filter_none.
Qed.

Lemma foldr_max_bound (ks : list Z) k : k ∈ ks -> k <= foldr Z.max 0 ks.
Proof.
  induction ks as [|j ks IH]; intros Hk; [by apply elem_of_nil in Hk |].
  simpl. apply elem_of_cons in Hk as [-> | Hk]; [lia |].
  specialize (IH Hk). lia.
Qed.

Lemma next_pk_fresh m : m !! Orm.next_pk m = None.
Proof.
  destruct (m !! Orm.next_pk m) as [x|] eqn:Hm; [| done].
  exfalso. apply elem_of_map_to_list in Hm.
  assert (Orm.next_pk m ∈ (Orm.objects m).*1) as Hin.
  { apply list_elem_of_fmap. by exists (Orm.next_pk m, x). }
  apply foldr_max_bound in Hin. unfold Orm.next_pk in Hin at 1. lia.
Qed.
End Tables.

(** ** The rating annotation *)

Section Aggregation.
Implicit Types (ts : list (Instance Title)) (rs : list (Instance Review)).
Implicit Types (t : Instance Title) (jr : Orm.JoinRow).

Lemma join_rows_title rs t jr : jr ∈ Orm.join_rows rs t -> jr.1 = t.
Proof.
  unfold Orm.join_rows.
  destruct (filter _ rs) as [|r matching].
  - intros Hjr. apply list_elem_of_singleton in Hjr. by subst.
  - intros Hjr. apply list_elem_of_fmap in Hjr as [r' [-> _]]. done.
Qed.

Lemma join_rows_head rs t :
  exists jr rest, Orm.join_rows rs t = jr :: rest /\ jr.1 = t.
Proof.
  unfold Orm.join_rows.
  destruct (filter _ rs) as [|r matching]; simpl; eauto.
Qed.

(** The rows of the join that carry a title's key are the rows the
    title contributed. *)
Lemma group_of_title ts rs t :
  NoDup ts.*1 -> t ∈ ts ->
  filter (fun jr => pk jr.1 = pk t) (Orm.left_outer_join ts rs)
  = Orm.join_rows rs t.
Proof.
  unfold Orm.left_outer_join.
  induction ts as [|t' ts IH]; intros Hnd Ht.
  - by apply elem_of_nil in Ht.
  - rewrite fmap_cons in Hnd. apply NoDup_cons in Hnd as [Hfresh Hnd].
    rewrite bind_cons, filter_app.
    apply elem_of_cons in Ht as [-> | Ht].
    + rewrite filter_all.
      2:{ intros jr Hjr. by rewrite (join_rows_title _ _ _ Hjr). }
      rewrite filter_none; [by rewrite app_nil_r |].
      intros jr Hjr Hk. apply list_elem_of_bind in Hjr as [t2 [Hjr Ht2]].
      rewrite (join_rows_title _ _ _ Hjr) in Hk.
      apply Hfresh. apply list_elem_of_fmap. exists t2. split; [| done].
      symmetry. exact Hk.
    + rewrite filter_none; [by rewrite IH |].
      intros jr Hjr Hk. rewrite (join_rows_title _ _ _ Hjr) in Hk.
      apply Hfresh. apply list_elem_of_fmap. exists t. split; [| done].
      exact Hk.
Qed.

Lemma remove_dups_block (block rest : list Z) k :
  block <> [] -> (forall x, x ∈ block -> x = k) -> k ∉ rest ->
  remove_dups (block ++ rest) = k :: remove_dups rest.
Proof.
  induction block as [|x block IH]; intros Hne Hall Hk; [done |].
  assert (x = k) as -> by (apply Hall; left).
  destruct block as [|y block].
  - simpl. destruct (decide_rel elem_of k rest); [done | done].
  - assert (y = k) as -> by (apply Hall; right; left).
    change ((k :: k :: block) ++ rest) with (k :: ((k :: block) ++ rest)).
    cbn [remove_dups].
    destruct (decide_rel elem_of k ((k :: block) ++ rest)) as [_ | Hno].
    + apply IH; [done | | done]. intros x Hx. apply Hall. by right.
    + exfalso. apply Hno. left.
Qed.

(** Grouping the join by title key yields the titles' keys, in order. *)
Lemma join_keys ts rs :
  NoDup ts.*1 ->
  remove_dups ((fun jr => pk jr.1) <$> Orm.left_outer_join ts rs) = ts.*1.
Proof.
  unfold Orm.left_outer_join.
  induction ts as [|t ts IH]; intros Hnd; [done |].
  rewrite fmap_cons in Hnd. apply NoDup_cons in Hnd as [Hfresh Hnd].
  rewrite bind_cons, fmap_app, fmap_cons.
  rewrite (remove_dups_block _ _ (pk t)).
  - by rewrite IH.
  - destruct (join_rows_head rs t) as [jr [rest [-> _]]]. done.
  - intros x Hx. apply list_elem_of_fmap in Hx as [jr [-> Hjr]].
    by rewrite (join_rows_title _ _ _ Hjr).
  - intros Hin. apply list_elem_of_fmap in Hin as [jr [Hk Hjr]].
    apply list_elem_of_bind in Hjr as [t2 [Hjr Ht2]].
    rewrite (join_rows_title _ _ _ Hjr) in Hk.
    apply Hfresh. apply list_elem_of_fmap. by exists t2.
Qed.


Lemma score_column_matching t (l : list (Instance Review)) :
  omap id (Orm.score_column ((fun r => (t, Some r)) <$> l))
  = (fun r : Instance Review => review_score (row r)) <$> l.
Proof.
  unfold Orm.score_column.
  induction l as [|x l IHl]; [done |].
  rewrite !fmap_cons. cbn [omap list_omap]. simpl. f_equal. exact IHl.
Qed.

(** [AVG] over a title's rows of the join is the mean of the scores of
    the reviews matching the title. *)
Lemma Avg_join_rows rs t :
  Orm.Avg (Orm.score_column (Orm.join_rows rs t))
  = arithmetic_mean
      ((fun r : Instance Review => review_score (row r))
         <$> filter (fun r : Instance Review => review_title (row r) = pk t) rs).
Proof.
  unfold Orm.join_rows.
  destruct (filter _ rs) as [|r matching]; [done |].
  unfold Orm.Avg. rewrite score_column_matching. done.
Qed.

Lemma omap_fmap_total {B C D} (f : C -> option D) (h : B -> C) (g : B -> D)
    (l : list B) :
  (forall x, x ∈ l -> f (h x) = Some (g x)) -> omap f (h <$> l) = g <$> l.
Proof.
  induction l as [|y l IH]; intros Hall; [done |].
  rewrite !fmap_cons. cbn [omap list_omap]. rewrite Hall by left.
  f_equal. apply IH. intros x Hx. apply Hall. by right.
Qed.

(** The annotated queryset lists every title once, with the mean of
    the scores of its reviews. *)
Lemma annotate_rating_mean (s : Store) :
  Orm.annotate_rating s
  = (fun t => (t, arithmetic_mean (related_scores s (pk t))))
      <$> Orm.objects (titles s).
Proof.
  unfold Orm.annotate_rating, Orm.group_by.
  assert (Hnd : NoDup (Orm.objects (titles s)).*1)
    by apply NoDup_fst_map_to_list.
  rewrite join_keys by done.
  rewrite <- list_fmap_compose.
  apply omap_fmap_total. intros t Ht. cbn [fst snd compose].
  rewrite group_of_title by done.
  destruct (join_rows_head (Orm.objects (reviews s)) t)
    as [jr [rest [Heq Hjr]]].
  unfold related_scores. rewrite <- Avg_join_rows. rewrite Heq. simpl.
  by rewrite Hjr.
Qed.
End Aggregation.

(** ** Ratings of titles *)

(** The mean is the quotient of the sum by the count. *)
Lemma arithmetic_mean_correct (scores : list Z) :
  match arithmetic_mean scores with
  | None => scores = []
  | Some q =>
      scores <> []
      /\ Qeq (Qmult q (inject_Z (Z.of_nat (length scores))))
             (inject_Z (foldr Z.add 0 scores))
  end.
Proof.
  destruct scores as [|x l]; [done |].
  split; [done |].
  set (n := length (x :: l)). set (t := foldr Z.add 0 (x :: l)).
  assert (Hn : n <> 0%nat) by done.
  unfold Qeq, Qmult, inject_Z. cbn [Qnum Qden].
  rewrite Pos.mul_1_r.
  replace (Z.pos (Pos.of_nat n)) with (Z.of_nat n); [ring |].
  destruct n; [done |]. rewrite <- Pos.of_nat_succ, Zpos_P_of_succ_nat. lia.
Qed.

(** A title has no mean exactly when no stored review is related to it. *)
Lemma related_scores_empty (s : Store) (id : Z) :
  arithmetic_mean (related_scores s id) = None
  <-> forall k r, reviews s !! k = Some r -> review_title r <> id.
Proof.
  unfold related_scores. split.
  - intros Hnone k r Hr Ht.
    assert ((k, r) ∈ filter
              (fun r : Instance Review => review_title (row r) = id)
              (Orm.objects (reviews s))) as Hin.
    { apply list_elem_of_filter. split; [done |]. by apply elem_of_map_to_list. }
    destruct (filter _ _) as [|x l]; [by apply elem_of_nil in Hin | done].
  - intros Hno. rewrite filter_none; [done |].
    intros [k r] Hin Ht. apply elem_of_map_to_list in Hin. by apply (Hno k r).
Qed.

Section TitleRatings.
Context `{Project}.
Import Drf.

Lemma filtered_queryset (request : Request) (s : Store) :
  TitleViewSet_filter_queryset request (TitleViewSet_queryset s)
  = (fun t => (t, arithmetic_mean (related_scores s (pk t))))
      <$> filter (fun t => TitleFilter request t = true)
            (Orm.objects (titles s)).
Proof.
  unfold TitleViewSet_filter_queryset, TitleViewSet_queryset.
  by rewrite annotate_rating_mean, filter_fmap.
Qed.

(** C1: on a GET request the title list renders every title with the
    arithmetic mean of the scores of the reviews related to it, null
    when it has none, and the title detail does so for the title looked
    up. *)
Theorem TitleViewSet_rating_is_mean (request : Request) (s : Store) :
  method request = "GET" ->
  TitleViewSet_list request s
  = (Ok (mkResponse
           (ObjectList
              ((fun t =>
                  <["rating" :=
                      rating_json (arithmetic_mean (related_scores s (pk t)))]>
                    (TitlesSerializer_fields t))
               <$> filter (fun t => TitleFilter request t = true)
                     (Orm.objects (titles s))))
           HTTP_200_OK), s)
  /\ forall (kwargs : Kwargs) id t,
       kwargs !! "pk" = Some id ->
       titles s !! id = Some t ->
       TitleFilter request (id, t) = true ->
       IsAdminOrReadOnly_on_title request (id, t) = true ->
       TitleViewSet_retrieve request kwargs s
       = (Ok (mkResponse
                (Object
                   (<["rating" :=
                        rating_json (arithmetic_mean (related_scores s id))]>
                      (TitlesSerializer_fields (id, t))))
                HTTP_200_OK), s).
Proof.
  intros Hget.
  assert (Hser : forall obj,
    TitleViewSet_serializer_data request obj = TitlesSerializer_data obj).
  { intros obj. unfold TitleViewSet_serializer_data, get_serializer_class.
    by rewrite Hget. }
  split.
  - unfold TitleViewSet_list, bind, reads, ret.
    rewrite filtered_queryset, <- list_fmap_compose.
    do 4 f_equal. apply list_fmap_ext. intros i t _. cbn [compose].
    by rewrite Hser.
  - intros kwargs id t Hpk Ht Hfilter Hperm.
    unfold TitleViewSet_retrieve, bind, Orm.get_object_or_404.
    rewrite filtered_queryset, Hpk, filter_fmap. cbn [fst].
    rewrite list_filter_filter.
    rewrite (filter_single _ _ (id, t)).
    + cbn [fmap list_fmap fst]. cbn [check_permissions]. rewrite Hperm.
      unfold ret. by rewrite Hser.
    + apply NoDup_map_to_list.
    + by apply elem_of_map_to_list.
    + done.
    + intros [k y] Hy [Hk _]. apply elem_of_map_to_list in Hy.
      unfold pk in Hk. simpl in Hk. injection Hk as ->. congruence.
Qed.
End TitleRatings.

Lemma TitleViewSet_rating_is_mean_witness :
  method Sample.get_request = "GET"
  /\ TitleViewSet_retrieve (H := Sample.project) Sample.get_request
       {["pk" := 10]} Sample.store
     = (Ok (mkResponse
              (Object (<["rating" := JNumber (13 # 2)]>
                         (Sample.title_json (10, mkTitle "Solaris"))))
              Drf.HTTP_200_OK), Sample.store).
Proof.
  split; [reflexivity |].
  exact (proj2
    (TitleViewSet_rating_is_mean (H := Sample.project)
       Sample.get_request Sample.store eq_refl)
    {["pk" := 10]} 10 (mkTitle "Solaris") eq_refl eq_refl eq_refl eq_refl).
Defined.

(** ** Signup and token issuance *)

Section Accounts.
Context `{Project}.
Import Drf.

(** With unique usernames, a lookup by username finds the one user. *)
Lemma user_by_username (s : Store) id u :
  unique_usernames s -> users s !! id = Some u ->
  filter (fun x : Instance User => username (row x) = username u)
    (Orm.objects (users s))
  = [(id, u)].
Proof.
  intros Huniq Hu. apply filter_single.
  - apply NoDup_map_to_list.
  - by apply elem_of_map_to_list.
  - done.
  - intros [j v] Hv Hname. apply elem_of_map_to_list in Hv.
    assert (j = id) as -> by (by apply (Huniq j v Hv id u Hu)).
    congruence.
Qed.

(** C2: a token request that names an existing user is answered 200
    with a bearer access token when the confirmation code checks against
    that user, and 400 without a token when it does not. *)
Theorem TokenViewSet_post_checks_code (request : Request) (s : Store)
    (d : TokenData) id u :
  TokenSerializer_run_validation (data request) s = inr d ->
  unique_usernames s ->
  users s !! id = Some u ->
  username u = token_username d ->
  exists response,
    TokenViewSet_post request s = (Ok response, s)
    /\ if check_token (id, u) (clock request) (token_confirmation_code d)
       then status response = HTTP_200_OK
            /\ issued_token response
               = Some (access_token_for_user (id, u) (clock request))
       else status response = HTTP_400_BAD_REQUEST
            /\ issued_token response = None.
Proof.
  intros Hvalid Huniq Hu Hname.
  unfold TokenViewSet_post, bind, is_valid, Orm.get_object_or_404.
  rewrite Hvalid, <- Hname, (user_by_username s id u Huniq Hu).
  destruct (check_token (id, u) (clock request) (token_confirmation_code d));
    cbn [negb]; eexists; (split; [reflexivity |]); split; reflexivity.
Qed.

(** C3, amended: a successful token request leaves the store as it
    was, so the confirmation code is not used up: the same request
    succeeds again, and so does any later request with the same payload
    for which the token generator still accepts the code. *)
Theorem confirmation_code_not_consumed (request : Request) (s s' : Store)
    (response : Response) :
  TokenViewSet_post request s = (Ok response, s') ->
  status response = HTTP_200_OK ->
  s' = s
  /\ TokenViewSet_post request s' = (Ok response, s')
  /\ exists d u,
       TokenSerializer_run_validation (data request) s = inr d
       /\ check_token u (clock request) (token_confirmation_code d) = true
       /\ forall request2,
            data request2 = data request ->
            check_token u (clock request2) (token_confirmation_code d) = true ->
            exists response2,
              TokenViewSet_post request2 s' = (Ok response2, s')
              /\ status response2 = HTTP_200_OK
              /\ issued_token response2
                 = Some (access_token_for_user u (clock request2)).
Proof.
  intros Hpost Hstatus.
  assert (Hpost' := Hpost).
  unfold TokenViewSet_post, bind, is_valid, Orm.get_object_or_404 in Hpost.
  destruct (TokenSerializer_run_validation (data request) s) as [errs|d] eqn:Hvalid;
    [discriminate |].
  destruct (filter _ (Orm.objects (users s))) as [|u [|u2 more]] eqn:Hget;
    [discriminate | | discriminate].
  destruct (check_token u (clock request) (token_confirmation_code d)) eqn:Hcheck;
    cbn [negb] in Hpost; unfold ret in Hpost.
  2:{ injection Hpost as <- <-. discriminate Hstatus. }
  injection Hpost as <- <-.
  split; [done |]. split; [exact Hpost' |].
  exists d, u. split; [done |]. split; [done |].
  intros request2 Hdata Hcheck2.
  unfold TokenViewSet_post, bind, is_valid, Orm.get_object_or_404.
  rewrite Hdata, Hvalid, Hget, Hcheck2. cbn [negb].
  eexists. split; [reflexivity |]. split; reflexivity.
Qed.

(** The run of a valid signup: save, then one message to the outbox. *)
Lemma SignUpVeiwSet_post_valid (request : Request) (s s1 : Store)
    (d : SignUpData) (new_user : Instance User) :
  SignUpSerializer_run_validation (data request) s = inr d ->
  SignUpSerializer_save d s = (new_user, s1) ->
  SignUpVeiwSet_post request s
  = (Ok (mkResponse (Object (SignUpSerializer_data new_user)) HTTP_200_OK),
     set_outbox
       (fun box =>
          box ++ [mkEmail SEND_CODE_MESSAGE
                    (make_token new_user (clock request))
                    EMAIL_YAMDB [email (row new_user)]])
       s1).
Proof.
  intros Hvalid Hsave.
  unfold SignUpVeiwSet_post, bind, is_valid.
  rewrite Hvalid, Hsave.
  unfold send_confirmation_code, send_mail.
  reflexivity.
Qed.

(** C6: a valid signup request generates a confirmation code for the
    user the serializer saved, sends one message carrying that code to
    the user's address, and is answered 200. *)
Theorem SignUpVeiwSet_post_sends_code (request : Request) (s s1 : Store)
    (d : SignUpData) (new_user : Instance User) :
  SignUpSerializer_run_validation (data request) s = inr d ->
  SignUpSerializer_save d s = (new_user, s1) ->
  exists response s2,
    SignUpVeiwSet_post request s = (Ok response, s2)
    /\ status response = HTTP_200_OK
    /\ outbox s2
       = outbox s1
         ++ [mkEmail SEND_CODE_MESSAGE
               (make_token new_user (clock request))
               EMAIL_YAMDB [email (row new_user)]]
    /\ users s2 = users s1.
Proof.
  intros Hvalid Hsave. eexists _, _. split.
  - apply (SignUpVeiwSet_post_valid _ _ _ _ _ Hvalid Hsave).
  - done.
Qed.

(** C8: when the payload of a signup or token request fails serializer
    validation, the view raises the validation error with its messages
    per field, the response is 400, and the store is untouched: no user
    is created, no message is sent, no token is issued. *)
Theorem validation_failure_stops (request : Request) (s : Store)
    (errors : Errors) :
  (SignUpSerializer_run_validation (data request) s = inl errors ->
   SignUpVeiwSet_post request s = (Raise (ValidationError errors), s)
   /\ dispatch (SignUpVeiwSet_post request) s
      = (mkResponse (FieldErrors errors) HTTP_400_BAD_REQUEST, s))
  /\ (TokenSerializer_run_validation (data request) s = inl errors ->
      TokenViewSet_post request s = (Raise (ValidationError errors), s)
      /\ dispatch (TokenViewSet_post request) s
         = (mkResponse (FieldErrors errors) HTTP_400_BAD_REQUEST, s)
      /\ issued_token (dispatch (TokenViewSet_post request) s).1 = None).
Proof.
  split; intros Hinvalid.
  - assert (Hraise :
      SignUpVeiwSet_post request s = (Raise (ValidationError errors), s)).
    { unfold SignUpVeiwSet_post, bind, is_valid. by rewrite Hinvalid. }
    split; [exact Hraise |]. unfold dispatch. by rewrite Hraise.
  - assert (Hraise :
      TokenViewSet_post request s = (Raise (ValidationError errors), s)).
    { unfold TokenViewSet_post, bind, is_valid. by rewrite Hinvalid. }
    split; [exact Hraise |]. unfold dispatch. by rewrite Hraise.
Qed.

(** A model instance is true, so the guard of the deleting branch is
    false whatever the instance. *)
Lemma delete_guard_false (u : Instance User) :
  negb (Py.truth u) && is_active (row u) = false.
Proof. reflexivity. Qed.

(** C9: on a valid signup request the guard [not user and
    user.is_active] is false, the deleting branch is not taken, and the
    tables are as the serializer's save left them. *)
Theorem SignUpVeiwSet_post_never_deletes (request : Request) (s s1 : Store)
    (d : SignUpData) (new_user : Instance User) :
  SignUpSerializer_run_validation (data request) s = inr d ->
  SignUpSerializer_save d s = (new_user, s1) ->
  negb (Py.truth new_user) && is_active (row new_user) = false
  /\ exists response s2,
       SignUpVeiwSet_post request s = (Ok response, s2)
       /\ users s2 = users s1
       /\ reviews s2 = reviews s1
       /\ comments s2 = comments s1
       /\ users s2 !! pk new_user = users s1 !! pk new_user.
Proof.
  intros Hvalid Hsave. split; [apply delete_guard_false |].
  eexists _, _. split.
  - apply (SignUpVeiwSet_post_valid _ _ _ _ _ Hvalid Hsave).
  - done.
Qed.
End Accounts.

(** ** The [me] route *)

Section Me.
Context `{Project}.
Import Drf.

(** Setting every item of a dictionary on a user: each column ends up
    with the value the dictionary holds for it, or keeps its own. *)
Lemma setattr_items (instance : Instance User) (items : gmap string Value) :
  let instance' :=
    map_fold (fun attr value obj => setattr obj attr value) instance items in
  pk instance' = pk instance
  /\ username (row instance')
     = submitted_str items "username" (username (row instance))
  /\ email (row instance')
     = submitted_str items "email" (email (row instance))
  /\ role (row instance') = submitted_role items (role (row instance))
  /\ is_active (row instance')
     = submitted_bool items "is_active" (is_active (row instance)).
Proof.
  cbv zeta.
  apply (map_fold_weak_ind
    (fun (obj : Instance User) (m : gmap string Value) =>
       pk obj = pk instance
       /\ username (row obj) = submitted_str m "username" (username (row instance))
       /\ email (row obj) = submitted_str m "email" (email (row instance))
       /\ role (row obj) = submitted_role m (role (row instance))
       /\ is_active (row obj)
          = submitted_bool m "is_active" (is_active (row instance)))).
  - done.
  - intros attr value m obj Hfresh (Hpk & Hname & Hmail & Hrole & Hact).
    unfold submitted_str, submitted_role, submitted_bool in *.
    unfold setattr. rewrite !lookup_insert.
    destruct value as [|b|n|v|r]; repeat case_decide; subst;
      try discriminate; rewrite ?Hfresh in *;
      cbn [row pk fst snd username email role is_active];
      repeat split; assumption || reflexivity.
Qed.

Lemma me_kwargs_role (r : Role) (validated_data : gmap string Value) :
  (<["role" := VRole r]> {["partial" := VBool true]} ∪ validated_data)
    !! "role" = Some (VRole r).
Proof. apply lookup_union_Some_l. apply lookup_insert_eq. Qed.

Lemma me_kwargs_other (r : Role) (validated_data : gmap string Value)
    (attr : string) :
  attr <> "role" -> attr <> "partial" ->
  (<["role" := VRole r]> {["partial" := VBool true]} ∪ validated_data)
    !! attr = validated_data !! attr.
Proof.
  intros Hrole Hpartial. apply lookup_union_r.
  rewrite lookup_insert_ne by done. by apply lookup_singleton_ne.
Qed.

(** A request of an authenticated user whose method the route binds runs
    the handler. *)
Lemma UserViewSet_me_routed (request : Request) (instance : Instance User)
    (s : Store) :
  user request = Some instance ->
  method request ∈ me_methods ->
  UserViewSet_me request s = dispatch (me request instance) s.
Proof.
  intros Huser Hmethod.
  unfold UserViewSet_me, dispatch, bind, check_permissions,
    IsAuthenticated, is_authenticated.
  rewrite Huser. unfold ret at 1. by rewrite bool_decide_eq_true_2.
Qed.

Lemma PATCH_in_me_methods : "PATCH" ∈ me_methods.
Proof. unfold me_methods. rewrite !elem_of_cons. auto. Qed.

(** C7: a PATCH to [me] leaves the requesting user's role as it was,
    whatever role the payload carries, and updates the other columns
    from the validated data. *)
Theorem me_patch_keeps_role (request : Request) (instance : Instance User)
    (s : Store) :
  user request = Some instance ->
  method request = "PATCH" ->
  authenticated_in s request ->
  role <$> users (UserViewSet_me request s).2 !! pk instance
    = role <$> users s !! pk instance
  /\ forall validated_data,
       UserSerializer_run_validation instance (data request) s
         = inr validated_data ->
       exists u',
         UserViewSet_me request s
         = (mkResponse (Object (UserSerializer_data (pk instance, u')))
              HTTP_200_OK,
            set_users (insert (pk instance) u') s)
         /\ role u' = role (row instance)
         /\ username u'
            = submitted_str validated_data "username"
                (username (row instance))
         /\ email u'
            = submitted_str validated_data "email" (email (row instance))
         /\ is_active u'
            = submitted_bool validated_data "is_active"
                (is_active (row instance)).
Proof.
  intros Huser Hmethod Hauth.
  unfold authenticated_in in Hauth. rewrite Huser in Hauth.
  assert (Hrun : forall validated_data,
    UserSerializer_run_validation instance (data request) s
      = inr validated_data ->
    exists u',
      UserViewSet_me request s
      = (mkResponse (Object (UserSerializer_data (pk instance, u')))
           HTTP_200_OK,
         set_users (insert (pk instance) u') s)
      /\ role u' = role (row instance)
      /\ username u'
         = submitted_str validated_data "username" (username (row instance))
      /\ email u'
         = submitted_str validated_data "email" (email (row instance))
      /\ is_active u'
         = submitted_bool validated_data "is_active"
             (is_active (row instance))).
  { intros validated_data Hvalid.
    pose proof (setattr_items instance
      (<["role" := VRole (role (row instance))]> {["partial" := VBool true]}
         ∪ validated_data)) as Hitems.
    cbv zeta in Hitems.
    destruct Hitems as (Hpk & Hname & Hmail & Hrole & Hact).
    unfold submitted_str, submitted_bool, submitted_role in *.
    rewrite me_kwargs_role in Hrole.
    rewrite me_kwargs_other in Hname by done.
    rewrite me_kwargs_other in Hmail by done.
    rewrite me_kwargs_other in Hact by done.
    destruct (map_fold _ instance _) as [k u'] eqn:Hfold.
    cbn [pk row fst snd] in Hpk, Hname, Hmail, Hrole, Hact. subst k.
    exists u'. split; [| by repeat split].
    rewrite (UserViewSet_me_routed request instance s Huser)
      by (rewrite Hmethod; apply PATCH_in_me_methods).
    unfold dispatch, me.
    rewrite Hmethod. rewrite decide_False by discriminate.
    unfold bind, is_valid. rewrite Hvalid.
    unfold UserSerializer_save, bind, Orm.save_user, modify, ret.
    by rewrite Hfold. }
  split; [| exact Hrun].
  destruct (UserSerializer_run_validation instance (data request) s)
    as [errors | validated_data] eqn:Hvalid.
  - rewrite (UserViewSet_me_routed request instance s Huser)
      by (rewrite Hmethod; apply PATCH_in_me_methods).
    unfold dispatch, me.
    rewrite Hmethod. rewrite decide_False by discriminate.
    unfold bind, is_valid. by rewrite Hvalid.
  - destruct (Hrun validated_data eq_refl) as (u' & -> & Hrole & _).
    cbn [snd users set_users]. rewrite lookup_insert_eq, Hauth.
    cbn [fmap option_fmap option_map]. by rewrite Hrole.
Qed.
End Me.

(** ** Parents resolved from the URL *)

Section Parents.
Context `{Project}.
Import Drf.

(** Resolving a parent by the key in the URL. *)
Lemma get_parent_missing {A} (table : Store -> gmap Z A) (kwargs : Kwargs)
    (name : string) (s : Store) :
  (forall id, kwargs !! name = Some id -> table s !! id = None) ->
  Orm.get_object_or_404 (fun s => Orm.objects (table s))
    (fun t => Some (pk t) = kwargs !! name) s
  = (Raise Http404, s).
Proof.
  intros Hmissing. unfold Orm.get_object_or_404.
  rewrite objects_by_pk.
  destruct (kwargs !! name) as [id|]; [| done].
  by rewrite (Hmissing id eq_refl).
Qed.

Lemma get_parent_found {A} (table : Store -> gmap Z A) (kwargs : Kwargs)
    (name : string) (s : Store) id x :
  kwargs !! name = Some id -> table s !! id = Some x ->
  Orm.get_object_or_404 (fun s => Orm.objects (table s))
    (fun t => Some (pk t) = kwargs !! name) s
  = (Ok (id, x), s).
Proof.
  intros Hid Hx. unfold Orm.get_object_or_404.
  by rewrite objects_by_pk, Hid, Hx.
Qed.

(** Whatever the parent, a lookup answers found, not found or several. *)
Lemma get_parent_cases {A} (table : Store -> gmap Z A) (kwargs : Kwargs)
    (name : string) (s : Store) :
  (exists id x, kwargs !! name = Some id /\ table s !! id = Some x
     /\ Orm.get_object_or_404 (fun s => Orm.objects (table s))
          (fun t => Some (pk t) = kwargs !! name) s = (Ok (id, x), s))
  \/ Orm.get_object_or_404 (fun s => Orm.objects (table s))
       (fun t => Some (pk t) = kwargs !! name) s = (Raise Http404, s).
Proof.
  unfold Orm.get_object_or_404. rewrite objects_by_pk.
  destruct (kwargs !! name) as [id|] eqn:Hid; [| by right].
  destruct (table s !! id) as [x|] eqn:Hx; [| by right].
  left. by exists id, x.
Qed.

Lemma ReviewViewSet_get_queryset_missing (kwargs : Kwargs) (s : Store) :
  (forall id, kwargs !! "title_id" = Some id -> titles s !! id = None) ->
  ReviewViewSet_get_queryset kwargs s = (Raise Http404, s).
Proof.
  intros Hmissing. unfold ReviewViewSet_get_queryset, bind.
  by rewrite (get_parent_missing titles kwargs "title_id" s Hmissing).
Qed.

Lemma CommentViewSet_get_review_missing (kwargs : Kwargs) (s : Store) :
  (forall id, kwargs !! "review_id" = Some id -> reviews s !! id = None) ->
  CommentViewSet_get_review kwargs s = (Raise Http404, s).
Proof.
  intros Hmissing. unfold CommentViewSet_get_review, bind.
  by rewrite (get_parent_missing reviews kwargs "review_id" s Hmissing).
Qed.

Lemma ReviewViewSet_handler_missing (action : Action) (request : Request)
    (kwargs : Kwargs) (s : Store) :
  (forall id, kwargs !! "title_id" = Some id -> titles s !! id = None) ->
  (action = create ->
   exists d, ReviewSerializer_validate_create request kwargs s = inr d) ->
  ReviewViewSet_handler action request kwargs s = (Raise Http404, s).
Proof.
  intros Hmissing Hvalid.
  pose proof (ReviewViewSet_get_queryset_missing kwargs s Hmissing) as Hqs.
  destruct action; cbn [ReviewViewSet_handler];
    unfold ReviewViewSet_update, ReviewViewSet_get_object, bind;
    rewrite ?Hqs; try reflexivity.
  destruct (Hvalid eq_refl) as [d Hd].
  unfold is_valid. rewrite Hd.
  unfold ReviewViewSet_perform_create, bind.
  by rewrite (get_parent_missing titles kwargs "title_id" s Hmissing).
Qed.

Lemma CommentViewSet_handler_missing (action : Action) (request : Request)
    (kwargs : Kwargs) (s : Store) :
  (forall id, kwargs !! "review_id" = Some id -> reviews s !! id = None) ->
  (action = create ->
   exists d, CommentSerializer_validate_create request kwargs s = inr d) ->
  CommentViewSet_handler action request kwargs s = (Raise Http404, s).
Proof.
  intros Hmissing Hvalid.
  pose proof (CommentViewSet_get_review_missing kwargs s Hmissing) as Hrev.
  destruct action; cbn [CommentViewSet_handler];
    unfold CommentViewSet_update, CommentViewSet_get_object,
      CommentViewSet_get_queryset, bind;
    rewrite ?Hrev; try reflexivity.
  destruct (Hvalid eq_refl) as [d Hd].
  unfold is_valid. rewrite Hd.
  unfold CommentViewSet_perform_create, bind.
  by rewrite Hrev.
Qed.

(** A write by an anonymous user is refused before any handler runs. *)
Lemma anonymous_write_refused (action : Action) (request : Request)
    (kwargs : Kwargs) (s : Store) :
  user request = None -> method request ∉ SAFE_METHODS ->
  ReviewViewSet_view action request kwargs s
    = (exception_handler NotAuthenticated, s)
  /\ CommentViewSet_view action request kwargs s
     = (exception_handler NotAuthenticated, s).
Proof.
  intros Hanon Hunsafe.
  unfold ReviewViewSet_view, CommentViewSet_view, dispatch, bind,
    ReviewViewSet_permissions, CommentViewSet_permissions,
    IsAuthenticatedOrReadOnly, is_authenticated.
  cbn [check_permissions]. unfold is_authenticated.
  rewrite Hanon, bool_decide_eq_false_2 by done.
  cbn [orb]. unfold permission_denied, is_authenticated. by rewrite Hanon.
Qed.

(** The permission classes of the two views are checked before the
    handler runs. *)
Lemma scoped_view_refused (action : Action) (request : Request)
    (kwargs : Kwargs) (s : Store) :
  IsAuthenticatedOrReadOnly request = false
  \/ IsAdminOrAuthorOrReadOnly_has_permission request = false ->
  ReviewViewSet_view action request kwargs s = (refusal request, s)
  /\ CommentViewSet_view action request kwargs s = (refusal request, s).
Proof.
  intros Hrefused.
  unfold ReviewViewSet_view, CommentViewSet_view, dispatch, bind,
    ReviewViewSet_permissions, CommentViewSet_permissions, refusal.
  cbn [check_permissions]. unfold permission_denied.
  destruct (IsAuthenticatedOrReadOnly request);
    destruct (IsAdminOrAuthorOrReadOnly_has_permission request);
    destruct Hrefused as [Hr | Hr]; try discriminate Hr;
    by destruct (is_authenticated request).
Qed.

(** C4, amended: a request to a review endpoint that passes the
    permission checks (and, for create, serializer validation) is
    answered 404 when the title of the URL does not exist, and likewise a
    request to a comment endpoint whose review does not exist.  A request
    that a permission class refuses is answered 401 or 403, and a create
    whose payload does not validate is answered 400 with the serializer's
    errors, in both cases whether or not the parent exists and without
    writing anything. *)
Theorem missing_parent_is_not_found (action : Action) (request : Request)
    (kwargs : Kwargs) (s : Store) :
  (IsAuthenticatedOrReadOnly request = false
   \/ IsAdminOrAuthorOrReadOnly_has_permission request = false ->
   ReviewViewSet_view action request kwargs s = (refusal request, s)
   /\ CommentViewSet_view action request kwargs s = (refusal request, s))
  /\ (IsAuthenticatedOrReadOnly request = true ->
      IsAdminOrAuthorOrReadOnly_has_permission request = true ->
      (forall errors,
         action = create ->
         ReviewSerializer_validate_create request kwargs s = inl errors ->
         ReviewViewSet_view action request kwargs s
         = (mkResponse (FieldErrors errors) HTTP_400_BAD_REQUEST, s))
      /\ (forall errors,
            action = create ->
            CommentSerializer_validate_create request kwargs s = inl errors ->
            CommentViewSet_view action request kwargs s
            = (mkResponse (FieldErrors errors) HTTP_400_BAD_REQUEST, s))
      /\ ((forall id, kwargs !! "title_id" = Some id -> titles s !! id = None) ->
          (action = create ->
           exists d,
             ReviewSerializer_validate_create request kwargs s = inr d) ->
          ReviewViewSet_view action request kwargs s
          = (mkResponse (Detail "Not found.") HTTP_404_NOT_FOUND, s))
      /\ ((forall id,
             kwargs !! "review_id" = Some id -> reviews s !! id = None) ->
          (action = create ->
           exists d,
             CommentSerializer_validate_create request kwargs s = inr d) ->
          CommentViewSet_view action request kwargs s
          = (mkResponse (Detail "Not found.") HTTP_404_NOT_FOUND, s))).
Proof.
  split; [apply scoped_view_refused |].
  intros Hauth Hperm. repeat split.
  - intros errors -> Hinvalid.
    unfold ReviewViewSet_view, dispatch, bind, ReviewViewSet_permissions.
    cbn [check_permissions ReviewViewSet_handler].
    rewrite Hauth, Hperm. unfold ret at 1.
    unfold bind, is_valid. by rewrite Hinvalid.
  - intros errors -> Hinvalid.
    unfold CommentViewSet_view, dispatch, bind, CommentViewSet_permissions.
    cbn [check_permissions CommentViewSet_handler].
    rewrite Hauth, Hperm. unfold ret at 1.
    unfold bind, is_valid. by rewrite Hinvalid.
  - intros Hmissing Hvalid.
    unfold ReviewViewSet_view, dispatch, bind, ReviewViewSet_permissions.
    cbn [check_permissions]. rewrite Hauth, Hperm. unfold ret at 1.
    by rewrite ReviewViewSet_handler_missing.
  - intros Hmissing Hvalid.
    unfold CommentViewSet_view, dispatch, bind, CommentViewSet_permissions.
    cbn [check_permissions]. rewrite Hauth, Hperm. unfold ret at 1.
    by rewrite CommentViewSet_handler_missing.
Qed.
End Parents.

(** ** Creation under a parent

    Adding a row whose references exist keeps the references whole. *)

Lemma referential_integrity_add_review (s : Store) (id : Z) (r : Review) :
  referential_integrity s ->
  is_Some (titles s !! review_title r) ->
  is_Some (users s !! review_author r) ->
  referential_integrity (set_reviews (insert id r) s).
Proof.
  intros [Hreviews Hcomments] Htitle Hauthor. split; cbn.
  - by apply map_Forall_insert_2.
  - intros k c Hc. destruct (Hcomments k c Hc) as [Hrev Hauth].
    split; [| done]. apply lookup_insert_is_Some'. by right.
Qed.

Lemma referential_integrity_add_comment (s : Store) (id : Z) (c : Comment) :
  referential_integrity s ->
  is_Some (reviews s !! comment_review c) ->
  is_Some (users s !! comment_author c) ->
  referential_integrity (set_comments (insert id c) s).
Proof.
  intros [Hreviews Hcomments] Hreview Hauthor. split; cbn.
  - done.
  - by apply map_Forall_insert_2.
Qed.

Section Creation.
Context `{Project}.
Import Drf.

(** The outcomes of a review-create request: nothing written, or one
    new review under a fresh key, bound to the title of the URL and to
    the requesting user. *)
Lemma ReviewViewSet_create_cases (request : Request) (kwargs : Kwargs)
    (s : Store) :
  (exists response,
     ReviewViewSet_view create request kwargs s = (response, s)
     /\ status response <> HTTP_201_CREATED)
  \/ exists title_pk title author d,
       kwargs !! "title_id" = Some title_pk
       /\ titles s !! title_pk = Some title
       /\ user request = Some author
       /\ ReviewSerializer_validate_create request kwargs s = inr d
       /\ ReviewViewSet_view create request kwargs s
          = (let r := mkReview title_pk (pk author)
                        (data_text d) (data_score d) in
             (mkResponse
                (Object (ReviewSerializer_data (Orm.next_pk (reviews s), r)))
                HTTP_201_CREATED,
              set_reviews (insert (Orm.next_pk (reviews s)) r) s)).
Proof.
  unfold ReviewViewSet_view, dispatch, bind, ReviewViewSet_permissions.
  cbn [check_permissions].
  destruct (IsAuthenticatedOrReadOnly request).
  2:{ left. unfold permission_denied.
      destruct (is_authenticated request); eexists; split;
        try reflexivity; done. }
  destruct (IsAdminOrAuthorOrReadOnly_has_permission request).
  2:{ left. unfold permission_denied.
      destruct (is_authenticated request); eexists; split;
        try reflexivity; done. }
  cbn [ReviewViewSet_handler]. unfold bind, is_valid, ret. cbn beta iota.
  destruct (ReviewSerializer_validate_create request kwargs s)
    as [errors | d] eqn:Hvalid.
  { left. eexists; split; [reflexivity | done]. }
  unfold ReviewViewSet_perform_create, bind. cbn beta iota.
  destruct (get_parent_cases titles kwargs "title_id" s)
    as [(title_pk & title & Hk & Ht & ->) | ->].
  2:{ left. eexists; split; [reflexivity | done]. }
  destruct (user request) as [author|] eqn:Huser.
  2:{ left. eexists; split; [reflexivity | done]. }
  right. exists title_pk, title, author, d. by repeat split.
Qed.

Lemma CommentViewSet_create_cases (request : Request) (kwargs : Kwargs)
    (s : Store) :
  (exists response,
     CommentViewSet_view create request kwargs s = (response, s)
     /\ status response <> HTTP_201_CREATED)
  \/ exists review_pk review author text,
       kwargs !! "review_id" = Some review_pk
       /\ reviews s !! review_pk = Some review
       /\ user request = Some author
       /\ CommentSerializer_validate_create request kwargs s = inr text
       /\ CommentViewSet_view create request kwargs s
          = (let c := mkComment review_pk (pk author) text in
             (mkResponse
                (Object (CommentSerializer_data (Orm.next_pk (comments s), c)))
                HTTP_201_CREATED,
              set_comments (insert (Orm.next_pk (comments s)) c) s)).
Proof.
  unfold CommentViewSet_view, dispatch, bind, CommentViewSet_permissions.
  cbn [check_permissions].
  destruct (IsAuthenticatedOrReadOnly request).
  2:{ left. unfold permission_denied.
      destruct (is_authenticated request); eexists; split;
        try reflexivity; done. }
  destruct (IsAdminOrAuthorOrReadOnly_has_permission request).
  2:{ left. unfold permission_denied.
      destruct (is_authenticated request); eexists; split;
        try reflexivity; done. }
  cbn [CommentViewSet_handler]. unfold bind, is_valid, ret. cbn beta iota.
  destruct (CommentSerializer_validate_create request kwargs s)
    as [errors | text] eqn:Hvalid.
  { left. eexists; split; [reflexivity | done]. }
  unfold CommentViewSet_perform_create, CommentViewSet_get_review, bind, ret.
  cbn beta iota.
  destruct (get_parent_cases reviews kwargs "review_id" s)
    as [(review_pk & review & Hk & Hr & ->) | ->].
  2:{ left. eexists; split; [reflexivity | done]. }
  destruct (user request) as [author|] eqn:Huser.
  2:{ left. eexists; split; [reflexivity | done]. }
  right. exists review_pk, review, author, text. by repeat split.
Qed.

(** C5: a review created by the create operation references the title
    resolved from the URL, which exists, and the requesting user as its
    author; a created comment references an existing review and its
    author; referential integrity holds after every create request. *)
Theorem create_keeps_references (request : Request) (kwargs : Kwargs)
    (s : Store) :
  authenticated_in s request ->
  referential_integrity s ->
  (referential_integrity (ReviewViewSet_view create request kwargs s).2
   /\ forall response s',
        ReviewViewSet_view create request kwargs s = (response, s') ->
        status response = HTTP_201_CREATED ->
        exists id r author,
          reviews s !! id = None
          /\ s' = set_reviews (insert id r) s
          /\ kwargs !! "title_id" = Some (review_title r)
          /\ is_Some (titles s' !! review_title r)
          /\ user request = Some author
          /\ review_author r = pk author
          /\ is_Some (users s' !! review_author r))
  /\ (referential_integrity (CommentViewSet_view create request kwargs s).2
      /\ forall response s',
           CommentViewSet_view create request kwargs s = (response, s') ->
           status response = HTTP_201_CREATED ->
           exists id c author,
             comments s !! id = None
             /\ s' = set_comments (insert id c) s
             /\ kwargs !! "review_id" = Some (comment_review c)
             /\ is_Some (reviews s' !! comment_review c)
             /\ user request = Some author
             /\ comment_author c = pk author
             /\ is_Some (users s' !! comment_author c)).
Proof.
  intros Hauth Hinv. unfold authenticated_in in Hauth. split.
  - destruct (ReviewViewSet_create_cases request kwargs s)
      as [(response & Hrun & Hstatus)
         | (title_pk & title & author & d & Hk & Ht & Huser & Hd & Hrun)].
    + rewrite Hrun. split; [done |].
      intros response' s' [= <- <-] Hcreated. done.
    + rewrite Huser in Hauth. rewrite Hrun. cbv zeta. split.
      * apply referential_integrity_add_review; cbn; [done | by eexists ..].
      * intros response' s' [= <- <-] _.
        eexists _, _, author. split; [apply next_pk_fresh |].
        split; [reflexivity |]. cbn. by repeat split; try eexists.
  - destruct (CommentViewSet_create_cases request kwargs s)
      as [(response & Hrun & Hstatus)
         | (review_pk & review & author & text & Hk & Hr & Huser & Hd & Hrun)].
    + rewrite Hrun. split; [done |].
      intros response' s' [= <- <-] Hcreated. done.
    + rewrite Huser in Hauth. rewrite Hrun. cbv zeta. split.
      * apply referential_integrity_add_comment; cbn; [done | by eexists ..].
      * intros response' s' [= <- <-] _.
        eexists _, _, author. split; [apply next_pk_fresh |].
        split; [reflexivity |]. cbn. by repeat split; try eexists.
Qed.
End Creation.

(** ** The properties on the sample project *)

Lemma sample_unique_usernames : unique_usernames Sample.store.
Proof. unfold unique_usernames. apply (bool_decide_unpack _). by vm_compute. Qed.

Lemma sample_referential_integrity : referential_integrity Sample.store.
Proof.
  unfold referential_integrity. apply (bool_decide_unpack _). by vm_compute.
Qed.

Lemma TokenViewSet_post_checks_code_witness :
  exists response,
    TokenViewSet_post (H := Sample.project) Sample.token_request Sample.store
    = (Ok response, Sample.store)
    /\ status response = Drf.HTTP_200_OK
       /\ issued_token response = Some "jwt.alice".
Proof.
  exact (TokenViewSet_post_checks_code (H := Sample.project)
           Sample.token_request Sample.store
           (mkTokenData "alice" "alice:alice@example.com")
           1 (row Sample.alice)
           eq_refl sample_unique_usernames eq_refl eq_refl).
Defined.

(** C3 as stated fails: the token request that has just succeeded
    succeeds again, with the same confirmation code. *)
Lemma confirmation_code_accepted_twice :
  let post := TokenViewSet_post (H := Sample.project) Sample.token_request in
  let first := Drf.dispatch post Sample.store in
  let second := Drf.dispatch post first.2 in
  status first.1 = Drf.HTTP_200_OK
  /\ issued_token first.1 = Some "jwt.alice"
  /\ status second.1 = Drf.HTTP_200_OK
  /\ issued_token second.1 = Some "jwt.alice".
Proof. vm_compute. by repeat split. Qed.

Lemma confirmation_code_not_consumed_witness :
  TokenViewSet_post (H := Sample.project) Sample.token_request Sample.store
  = (Ok (mkResponse (Object {["token" := JValue (VStr "jwt.alice")]})
           Drf.HTTP_200_OK), Sample.store)
  /\ TokenViewSet_post (H := Sample.project) Sample.token_request Sample.store
     = (Ok (mkResponse (Object {["token" := JValue (VStr "jwt.alice")]})
              Drf.HTTP_200_OK), Sample.store).
Proof.
  assert (Hrun :
    TokenViewSet_post (H := Sample.project) Sample.token_request Sample.store
    = (Ok (mkResponse (Object {["token" := JValue (VStr "jwt.alice")]})
             Drf.HTTP_200_OK), Sample.store)) by reflexivity.
  split; [exact Hrun |].
  exact (proj1 (proj2
    (confirmation_code_not_consumed (H := Sample.project)
       Sample.token_request Sample.store Sample.store _ Hrun eq_refl))).
Defined.

Lemma SignUpVeiwSet_post_sends_code_witness :
  exists response s2,
    SignUpVeiwSet_post (H := Sample.project) Sample.signup_request Sample.store
    = (Ok response, s2)
    /\ status response = Drf.HTTP_200_OK
    /\ outbox s2
       = [mkEmail SEND_CODE_MESSAGE "carol:carol@example.com"
            "yamdb@example.com" ["carol@example.com"]]
    /\ users s2
       = <[3 := mkUser "carol" "carol@example.com" RoleUser true]>
           (users Sample.store).
Proof.
  exact (SignUpVeiwSet_post_sends_code (H := Sample.project)
           Sample.signup_request Sample.store _
           (mkSignUpData "carol" "carol@example.com")
           (3, mkUser "carol" "carol@example.com" RoleUser true)
           eq_refl eq_refl).
Defined.

Lemma validation_failure_stops_witness :
  Drf.dispatch (SignUpVeiwSet_post (H := Sample.project)
                  Sample.bad_signup_request) Sample.store
  = (mkResponse (FieldErrors {["username" := ["Invalid username."]]})
       Drf.HTTP_400_BAD_REQUEST, Sample.store)
  /\ Drf.dispatch (TokenViewSet_post (H := Sample.project)
                     Sample.bad_token_request) Sample.store
     = (mkResponse
          (FieldErrors {["confirmation_code" := Sample.required]})
          Drf.HTTP_400_BAD_REQUEST, Sample.store).
Proof.
  split.
  - exact (proj2 (proj1
      (validation_failure_stops (H := Sample.project)
         Sample.bad_signup_request Sample.store
         {["username" := ["Invalid username."]]}) eq_refl)).
  - exact (proj1 (proj2 (proj2
      (validation_failure_stops (H := Sample.project)
         Sample.bad_token_request Sample.store
         {["confirmation_code" := Sample.required]}) eq_refl))).
Defined.

Lemma SignUpVeiwSet_post_never_deletes_witness :
  exists response s2,
    SignUpVeiwSet_post (H := Sample.project) Sample.signup_request Sample.store
    = (Ok response, s2)
    /\ users s2 !! 3 = Some (mkUser "carol" "carol@example.com" RoleUser true).
Proof.
  destruct (proj2
    (SignUpVeiwSet_post_never_deletes (H := Sample.project)
       Sample.signup_request Sample.store _
       (mkSignUpData "carol" "carol@example.com")
       (3, mkUser "carol" "carol@example.com" RoleUser true)
       eq_refl eq_refl))
    as (response & s2 & Hrun & _ & _ & _ & Hkept).
  exists response, s2. split; [exact Hrun |].
  exact Hkept.
Defined.

Lemma me_patch_keeps_role_witness :
  role <$> users (UserViewSet_me (H := Sample.project)
                    Sample.patch_me_request Sample.store).2 !! 1
  = Some RoleUser.
Proof.
  exact (proj1
    (me_patch_keeps_role (H := Sample.project)
       Sample.patch_me_request Sample.alice Sample.store
       eq_refl eq_refl eq_refl)).
Defined.

(** C4 as stated fails: a create request for a title that does not exist
    is not answered 404 when it comes without credentials (the permission
    check refuses it first, 401), nor when its payload does not validate
    (400). *)
Lemma create_on_missing_title_not_404 :
  titles Sample.store !! 999 = None
  /\ status
       (ReviewViewSet_view (H := Sample.project) Drf.create
          Sample.anonymous_review_request {["title_id" := 999]}
          Sample.store).1
     <> Drf.HTTP_404_NOT_FOUND
  /\ ReviewViewSet_view (H := Sample.project) Drf.create
       Sample.anonymous_review_request {["title_id" := 999]} Sample.store
     = (mkResponse (Detail "Authentication credentials were not provided.")
          Drf.HTTP_401_UNAUTHORIZED, Sample.store)
  /\ ReviewViewSet_view (H := Sample.project) Drf.create
       (mkRequest "POST" (Some Sample.alice) ∅ 0) {["title_id" := 999]}
       Sample.store
     = (mkResponse (FieldErrors {["text" := Sample.required]})
          Drf.HTTP_400_BAD_REQUEST, Sample.store).
Proof. repeat split. vm_compute. discriminate. Qed.

Lemma missing_parent_is_not_found_witness :
  ReviewViewSet_view (H := Sample.project) Drf.create
    Sample.review_request {["title_id" := 999]} Sample.store
  = (mkResponse (Detail "Not found.") Drf.HTTP_404_NOT_FOUND, Sample.store)
  /\ CommentViewSet_view (H := Sample.project) Drf.list_action
       Sample.get_request {["title_id" := 10; "review_id" := 999]}
       Sample.store
     = (mkResponse (Detail "Not found.") Drf.HTTP_404_NOT_FOUND, Sample.store)
  /\ ReviewViewSet_view (H := Sample.project) Drf.create
       Sample.anonymous_review_request {["title_id" := 999]} Sample.store
     = (refusal Sample.anonymous_review_request, Sample.store)
  /\ ReviewViewSet_view (H := Sample.project) Drf.create
       (mkRequest "POST" (Some Sample.alice) ∅ 0) {["title_id" := 999]}
       Sample.store
     = (mkResponse (FieldErrors {["text" := Sample.required]})
          Drf.HTTP_400_BAD_REQUEST, Sample.store).
Proof.
  split; [| split; [| split]].
  - apply (proj1 (proj2 (proj2
      (proj2
         (missing_parent_is_not_found (H := Sample.project) Drf.create
            Sample.review_request {["title_id" := 999]} Sample.store)
         eq_refl eq_refl)))).
    + intros id [= <-]. reflexivity.
    + intros _. by eexists.
  - apply (proj2 (proj2 (proj2
      (proj2
         (missing_parent_is_not_found (H := Sample.project) Drf.list_action
            Sample.get_request {["title_id" := 10; "review_id" := 999]}
            Sample.store)
         eq_refl eq_refl)))).
    + intros id [= <-]. reflexivity.
    + intros [=].
  - apply (proj1
      (proj1
         (missing_parent_is_not_found (H := Sample.project) Drf.create
            Sample.anonymous_review_request {["title_id" := 999]}
            Sample.store)
         (or_introl eq_refl))).
  - apply (proj1
      (proj2
         (missing_parent_is_not_found (H := Sample.project) Drf.create
            (mkRequest "POST" (Some Sample.alice) ∅ 0) {["title_id" := 999]}
            Sample.store)
         eq_refl eq_refl)
      {["text" := Sample.required]} eq_refl).
    by vm_compute.
Defined.

Lemma create_keeps_references_witness :
  referential_integrity
    (ReviewViewSet_view (H := Sample.project) Drf.create
       Sample.review_request {["title_id" := 11]} Sample.store).2
  /\ reviews
       (ReviewViewSet_view (H := Sample.project) Drf.create
          Sample.review_request {["title_id" := 11]} Sample.store).2 !! 102
     = Some (mkReview 11 1 "Fine" 7)
  /\ referential_integrity
       (CommentViewSet_view (H := Sample.project) Drf.create
          Sample.comment_request {["title_id" := 10; "review_id" := 101]}
          Sample.store).2
  /\ comments
       (CommentViewSet_view (H := Sample.project) Drf.create
          Sample.comment_request {["title_id" := 10; "review_id" := 101]}
          Sample.store).2 !! 1001
     = Some (mkComment 101 2 "Indeed").
Proof.
  split; [| split; [reflexivity | split; [| reflexivity]]].
  - exact (proj1 (proj1
      (create_keeps_references (H := Sample.project) Sample.review_request
         {["title_id" := 11]} Sample.store
         eq_refl sample_referential_integrity))).
  - exact (proj1 (proj2
      (create_keeps_references (H := Sample.project) Sample.comment_request
         {["title_id" := 10; "review_id" := 101]} Sample.store
         eq_refl sample_referential_integrity))).
Defined.

(** * Further properties *)

(** ** More on token issuance *)

Section TokenIssuance.

Context `{Project}.

Import Drf.

(** The runs of a token request, one per way out of [post]. *)
Lemma TokenViewSet_post_cases (request : Request) (s : Store) :
  (exists errors,
     TokenSerializer_run_validation (data request) s = inl errors
     /\ dispatch (TokenViewSet_post request) s
        = (mkResponse (FieldErrors errors) HTTP_400_BAD_REQUEST, s))
  \/ (exists d,
        TokenSerializer_run_validation (data request) s = inr d
        /\ ((filter (fun u : Instance User =>
                       username (row u) = token_username d)
               (Orm.objects (users s)) = []
             /\ dispatch (TokenViewSet_post request) s
                = (mkResponse (Detail "Not found.") HTTP_404_NOT_FOUND, s))
            \/ (exists a b rest,
                  filter (fun u : Instance User =>
                            username (row u) = token_username d)
                    (Orm.objects (users s)) = a :: b :: rest
                  /\ dispatch (TokenViewSet_post request) s
                     = (mkResponse NoData HTTP_500_INTERNAL_SERVER_ERROR, s))
            \/ (exists u,
                  filter (fun u : Instance User =>
                            username (row u) = token_username d)
                    (Orm.objects (users s)) = [u]
                  /\ dispatch (TokenViewSet_post request) s
                     = (if check_token u (clock request)
                             (token_confirmation_code d)
                        then mkResponse
                               (Object
                                  {["token" :=
                                      JValue (VStr (access_token_for_user u
                                                      (clock request)))]})
                               HTTP_200_OK
                        else mkResponse NoData HTTP_400_BAD_REQUEST, s)))).
Proof.
  unfold dispatch, TokenViewSet_post, bind, is_valid, Orm.get_object_or_404.
  destruct (TokenSerializer_run_validation (data request) s)
    as [errors | d]; [left; by exists errors |].
  right. exists d. split; [done |].
  destruct (filter _ (Orm.objects (users s))) as [|u [|u2 rest]].
  - by left.
  - right. right. exists u. split; [done |].
    by destruct (check_token u (clock request) (token_confirmation_code d)).
  - right. left. by exists u, u2, rest.
Qed.

(** X1: an access token is only ever issued for a stored user whose
    username the payload names and for whom the token generator accepted
    the submitted confirmation code. *)
Theorem TokenViewSet_post_token_sound (request : Request) (s : Store)
    (token : string) :
  issued_token (dispatch (TokenViewSet_post request) s).1 = Some token ->
  exists d u,
    TokenSerializer_run_validation (data request) s = inr d
    /\ users s !! pk u = Some (row u)
    /\ username (row u) = token_username d
    /\ check_token u (clock request) (token_confirmation_code d) = true
    /\ token = access_token_for_user u (clock request)
    /\ status (dispatch (TokenViewSet_post request) s).1 = HTTP_200_OK.
Proof.
  intros Hissued.
  destruct (TokenViewSet_post_cases request s)
    as [(errors & _ & Hrun)
       | (d & Hd & [[_ Hrun] | [(a & b & rest & _ & Hrun)
                                | (u & Hu & Hrun)]])];
    rewrite Hrun in Hissued |- *; try discriminate Hissued.
  destruct (check_token u (clock request) (token_confirmation_code d))
    eqn:Hcheck; [| discriminate Hissued].
  exists d, u.
  assert (Hin : u ∈ filter (fun u : Instance User =>
                              username (row u) = token_username d)
                      (Orm.objects (users s)))
    by (rewrite Hu; left).
  apply list_elem_of_filter in Hin as [Hname Hin].
  destruct u as [id u]. apply elem_of_map_to_list in Hin.
  cbn in Hissued. injection Hissued as <-.
  by repeat split.
Qed.

(** X2: a token request never writes: whatever the payload and whatever
    the answer, the store after the request is the store before it. *)
Theorem TokenViewSet_post_reads_only (request : Request) (s : Store) :
  (dispatch (TokenViewSet_post request) s).2 = s.
Proof.
  destruct (TokenViewSet_post_cases request s)
    as [(errors & _ & Hrun)
       | (d & Hd & [[_ Hrun] | [(a & b & rest & _ & Hrun)
                                | (u & Hu & Hrun)]])];
    by rewrite Hrun.
Qed.

(** X3: a token request whose username matches no stored user is answered
    404 without a token, even when the payload is well formed. *)
Theorem TokenViewSet_post_unknown_user (request : Request) (s : Store)
    (d : TokenData) :
  TokenSerializer_run_validation (data request) s = inr d ->
  (forall id u, users s !! id = Some u -> username u <> token_username d) ->
  dispatch (TokenViewSet_post request) s
  = (mkResponse (Detail "Not found.") HTTP_404_NOT_FOUND, s)
  /\ issued_token (dispatch (TokenViewSet_post request) s).1 = None.
Proof.
  intros Hd Hnone.
  assert (Hrun : dispatch (TokenViewSet_post request) s
                 = (mkResponse (Detail "Not found.") HTTP_404_NOT_FOUND, s)).
  { unfold dispatch, TokenViewSet_post, bind, is_valid, Orm.get_object_or_404.
    rewrite Hd. rewrite filter_none; [done |].
    intros [id u] Hin Hname. apply elem_of_map_to_list in Hin.
    by apply (Hnone id u). }
  by rewrite Hrun.
Qed.

(** X5: the two steps of the handshake fit: after a valid signup, a token
    request that names the new user and submits the body of the message
    just mailed is answered 200 with an access token for that user,
    provided the token generator accepts its own code at that time. *)
Theorem signup_then_token (signup_request token_request : Request)
    (s s1 : Store) (d : SignUpData) (new_user : Instance User)
    (td : TokenData) :
  SignUpSerializer_run_validation (data signup_request) s = inr d ->
  SignUpSerializer_save d s = (new_user, s1) ->
  users s1 !! pk new_user = Some (row new_user) ->
  unique_usernames s1 ->
  check_token new_user (clock token_request)
    (make_token new_user (clock signup_request)) = true ->
  let s2 := (dispatch (SignUpVeiwSet_post signup_request) s).2 in
  TokenSerializer_run_validation (data token_request) s2 = inr td ->
  token_username td = username (row new_user) ->
  mail_body <$> last (outbox s2) = Some (token_confirmation_code td) ->
  dispatch (TokenViewSet_post token_request) s2
  = (mkResponse
       (Object
          {["token" :=
              JValue (VStr (access_token_for_user new_user
                              (clock token_request)))]})
       HTTP_200_OK, s2).
Proof.
  intros Hd Hsave Hstored Huniq Haccepts s2 Htd Hname Hbody.
  assert (Hs2 : s2 = set_outbox
            (fun box =>
               box ++ [mkEmail SEND_CODE_MESSAGE
                         (make_token new_user (clock signup_request))
                         EMAIL_YAMDB [email (row new_user)]]) s1).
  { unfold s2, dispatch.
    by rewrite (SignUpVeiwSet_post_valid _ _ _ _ _ Hd Hsave). }
  assert (Hcode : token_confirmation_code td
                  = make_token new_user (clock signup_request)).
  { rewrite Hs2 in Hbody. cbn [outbox set_outbox] in Hbody.
    rewrite last_snoc in Hbody. cbn in Hbody. congruence. }
  assert (Husers : users s2 = users s1) by (by rewrite Hs2).
  unfold dispatch, TokenViewSet_post, bind, is_valid, Orm.get_object_or_404.
  rewrite Htd, Hname, Husers.
  destruct new_user as [id u]. cbn [pk row fst snd] in *.
  rewrite (user_by_username s1 id u Huniq Hstored).
  by rewrite Hcode, Haccepts.
Qed.

End TokenIssuance.

(** ** More on the [me] route *)

Section MeRoute.

Context `{Project}.

Import Drf.

(** The run of [me] on a PATCH or HEAD request that validates. *)
Lemma UserViewSet_me_update (request : Request) (instance : Instance User)
    (s : Store) (validated_data : gmap string Value) :
  user request = Some instance ->
  method request ∈ me_methods ->
  method request <> "GET" ->
  UserSerializer_run_validation instance (data request) s
    = inr validated_data ->
  let saved :=
    map_fold (fun attr value obj => setattr obj attr value) instance
      (<["role" := VRole (role (row instance))]> {["partial" := VBool true]}
         ∪ validated_data) in
  UserViewSet_me request s
  = (mkResponse (Object (UserSerializer_data saved)) HTTP_200_OK,
     set_users (insert (pk saved) (row saved)) s).
Proof.
  intros Huser Hrouted Hmethod Hvalid saved.
  rewrite (UserViewSet_me_routed request instance s Huser Hrouted).
  unfold dispatch, me.
  rewrite decide_False by done.
  unfold bind, is_valid. rewrite Hvalid.
  unfold UserSerializer_save, bind, Orm.save_user, modify, ret.
  reflexivity.
Qed.

(** X6: without an authenticated user the [me] route refuses the request
    (401), whatever the method and payload, and changes nothing. *)
Theorem UserViewSet_me_anonymous (request : Request) (s : Store) :
  user request = None ->
  UserViewSet_me request s
  = (mkResponse (Detail "Authentication credentials were not provided.")
       HTTP_401_UNAUTHORIZED, s).
Proof.
  intros Hanon.
  unfold UserViewSet_me, dispatch, bind, check_permissions,
    IsAuthenticated, permission_denied, is_authenticated.
  by rewrite Hanon.
Qed.

(** X7: a GET to [me] answers with the requesting user's own data and
    changes nothing, whatever the payload. *)
Theorem UserViewSet_me_get (request : Request) (instance : Instance User)
    (s : Store) :
  user request = Some instance ->
  method request = "GET" ->
  UserViewSet_me request s
  = (mkResponse (Object (UserSerializer_data instance)) HTTP_200_OK, s).
Proof.
  intros Huser Hmethod.
  rewrite (UserViewSet_me_routed request instance s Huser)
    by (rewrite Hmethod; unfold me_methods; rewrite !elem_of_cons; auto).
  unfold dispatch, me. by rewrite Hmethod.
Qed.

(** X8: the [me] route touches nothing but the requesting user's row:
    titles, reviews, comments and the outbox stay as they were, and so
    does the row of every other user. *)
Theorem UserViewSet_me_frame (request : Request) (s : Store) :
  let s' := (UserViewSet_me request s).2 in
  titles s' = titles s
  /\ reviews s' = reviews s
  /\ comments s' = comments s
  /\ outbox s' = outbox s
  /\ forall id,
       (forall u, user request = Some u -> id <> pk u) ->
       users s' !! id = users s !! id.
Proof.
  cbv zeta.
  destruct (user request) as [instance|] eqn:Huser.
  2:{ unfold UserViewSet_me, dispatch, bind, check_permissions,
        IsAuthenticated, permission_denied, is_authenticated.
      by rewrite Huser. }
  destruct (decide (method request ∈ me_methods)) as [Hrouted | Hunbound].
  2:{ unfold UserViewSet_me, dispatch, bind, check_permissions,
        IsAuthenticated, is_authenticated.
      rewrite Huser. unfold ret at 1.
      rewrite bool_decide_eq_false_2 by done.
      by destruct (decide (method request = "OPTIONS")). }
  destruct (decide (method request = "GET")) as [Hget | Hother].
  { rewrite (UserViewSet_me_routed request instance s Huser Hrouted).
    unfold dispatch, me. by rewrite Hget. }
  destruct (UserSerializer_run_validation instance (data request) s)
    as [errors | validated_data] eqn:Hvalid.
  - assert (Hrun : UserViewSet_me request s
              = (mkResponse (FieldErrors errors) HTTP_400_BAD_REQUEST, s)).
    { rewrite (UserViewSet_me_routed request instance s Huser Hrouted).
      unfold dispatch, me.
      rewrite decide_False by done.
      unfold bind, is_valid. by rewrite Hvalid. }
    by rewrite Hrun.
  - rewrite (UserViewSet_me_update request instance s validated_data
               Huser Hrouted Hother Hvalid).
    cbn [snd titles reviews comments outbox users set_users].
    repeat split; try reflexivity.
    intros id Hid.
    pose proof (setattr_items instance
      (<["role" := VRole (role (row instance))]> {["partial" := VBool true]}
         ∪ validated_data)) as Hitems.
    cbv zeta in Hitems. destruct Hitems as [Hpk _].
    rewrite Hpk. apply lookup_insert_ne.
    intros Heq. by apply (Hid instance).
Qed.

(** X9: a PATCH to [me] that validates to no username, email or
    is_active (a payload carrying only a role, or nothing) rewrites the
    user's row with what it already holds: the store does not change. *)
Theorem UserViewSet_me_role_only (request : Request)
    (instance : Instance User) (s : Store)
    (validated_data : gmap string Value) :
  user request = Some instance ->
  authenticated_in s request ->
  method request = "PATCH" ->
  UserSerializer_run_validation instance (data request) s
    = inr validated_data ->
  validated_data !! "username" = None ->
  validated_data !! "email" = None ->
  validated_data !! "is_active" = None ->
  UserViewSet_me request s
  = (mkResponse (Object (UserSerializer_data instance)) HTTP_200_OK, s).
Proof.
  intros Huser Hauth Hmethod Hvalid Hname Hmail Hact.
  unfold authenticated_in in Hauth. rewrite Huser in Hauth.
  rewrite (UserViewSet_me_update request instance s validated_data Huser)
    by (rewrite ?Hmethod; first [apply PATCH_in_me_methods | done]).
  cbv zeta.
  pose proof (setattr_items instance
    (<["role" := VRole (role (row instance))]> {["partial" := VBool true]}
       ∪ validated_data)) as Hitems.
  cbv zeta in Hitems.
  destruct Hitems as (Hpk & Huname & Humail & Hurole & Huact).
  unfold submitted_str, submitted_bool, submitted_role in *.
  rewrite me_kwargs_role in Hurole.
  rewrite me_kwargs_other, Hname in Huname by done.
  rewrite me_kwargs_other, Hmail in Humail by done.
  rewrite me_kwargs_other, Hact in Huact by done.
  destruct (map_fold _ instance _) as [k u'].
  destruct instance as [id u]. cbn [pk row fst snd] in *. subst k.
  assert (u' = u) as ->.
  { destruct u', u. cbn in *. congruence. }
  f_equal. destruct s as [us ts rs cs box].
  unfold set_users. cbn [users titles reviews comments outbox] in *.
  f_equal. by apply insert_id.
Qed.

(** A method for which the route has no handler is answered 405 and
    nothing is written, payload or not. *)
Lemma UserViewSet_me_unbound (request : Request) (instance : Instance User)
    (s : Store) :
  user request = Some instance ->
  method request ∉ me_methods ->
  method request <> "OPTIONS" ->
  UserViewSet_me request s = (http_method_not_allowed request, s).
Proof.
  intros Huser Hunbound Hoptions.
  unfold UserViewSet_me, dispatch, bind, check_permissions,
    IsAuthenticated, is_authenticated.
  rewrite Huser. unfold ret at 1.
  rewrite bool_decide_eq_false_2 by done.
  by rewrite decide_False.
Qed.

End MeRoute.

(** ** More on ratings *)

Lemma sum_permutation (l l' : list Z) :
  l ≡ₚ l' -> foldr Z.add 0 l = foldr Z.add 0 l'.
Proof. induction 1; simpl; lia. Qed.

Lemma arithmetic_mean_permutation (l l' : list Z) :
  l ≡ₚ l' -> arithmetic_mean l = arithmetic_mean l'.
Proof.
  intros Hperm. unfold arithmetic_mean.
  rewrite (sum_permutation l l' Hperm), (Permutation_length Hperm).
  destruct l, l'; try done.
  - by apply Permutation_nil_cons in Hperm.
  - symmetry in Hperm. by apply Permutation_nil_cons in Hperm.
Qed.

Lemma sum_between (lo hi : Z) (l : list Z) :
  (forall x, x ∈ l -> lo <= x <= hi) ->
  lo * Z.of_nat (length l) <= foldr Z.add 0 l <= hi * Z.of_nat (length l).
Proof.
  induction l as [|x l IH]; intros Hall; [simpl; lia |].
  assert (lo <= x <= hi) by (apply Hall; left).
  assert (lo * Z.of_nat (length l) <= foldr Z.add 0 l
          <= hi * Z.of_nat (length l))
    by (apply IH; intros y Hy; apply Hall; by right).
  cbn [length foldr]. lia.
Qed.

(** The scores related to a title after a review was stored under a fresh
    key. *)
Lemma related_scores_insert (s : Store) (id : Z) (r : Review) (title_pk : Z) :
  reviews s !! id = None ->
  related_scores (set_reviews (insert id r) s) title_pk
  ≡ₚ (if decide (review_title r = title_pk)
       then review_score r :: related_scores s title_pk
       else related_scores s title_pk).
Proof.
  intros Hfresh. unfold related_scores, Orm.objects.
  cbn [reviews set_reviews].
  rewrite (map_to_list_insert _ _ _ Hfresh).
  rewrite filter_cons. cbn [row snd].
  destruct (decide (review_title r = title_pk)); done.
Qed.

Section Ratings.

Context `{Project}.

Import Drf.

(** X10: the detail of a title is 404 when no title has the key of the
    URL, and also when the title exists but the filter of the request
    leaves it out. *)
Theorem TitleViewSet_retrieve_missing (request : Request) (kwargs : Kwargs)
    (s : Store) :
  (forall id t,
     kwargs !! "pk" = Some id -> titles s !! id = Some t ->
     TitleFilter request (id, t) = false) ->
  Drf.dispatch (TitleViewSet_retrieve request kwargs) s
  = (mkResponse (Detail "Not found.") HTTP_404_NOT_FOUND, s).
Proof.
  intros Hout.
  unfold dispatch, TitleViewSet_retrieve, bind, Orm.get_object_or_404.
  rewrite filtered_queryset, filter_fmap, list_filter_filter.
  rewrite filter_none; [done |].
  intros [id t] Hin [Hpk Hfilter]. apply elem_of_map_to_list in Hin.
  cbn [fst pk] in Hpk. symmetry in Hpk.
  rewrite (Hout id t Hpk Hin) in Hfilter. discriminate.
Qed.

End Ratings.

(** X11: the annotation neither drops nor repeats a title: the annotated
    queryset lists the stored titles, each once, whether a title has many
    reviews or none. *)
Theorem annotate_rating_titles (s : Store) :
  (Orm.annotate_rating s).*1 = Orm.objects (titles s)
  /\ NoDup ((Orm.annotate_rating s).*1).*1.
Proof.
  assert (Hkeys : (Orm.annotate_rating s).*1 = Orm.objects (titles s)).
  { rewrite annotate_rating_mean, <- list_fmap_compose.
    rewrite <- (list_fmap_id (Orm.objects (titles s))) at 2.
    by apply list_fmap_ext. }
  split; [exact Hkeys |].
  rewrite Hkeys. apply NoDup_fst_map_to_list.
Qed.

(** X12: a rating lies between the lowest and the highest score of the
    title's reviews: with every related score within [lo, hi], so is the
    rating. *)
Theorem rating_within_scores (s : Store) (t : Instance Title) (q : Q)
    (lo hi : Z) :
  (t, Some q) ∈ Orm.annotate_rating s ->
  (forall id r, reviews s !! id = Some r -> review_title r = pk t ->
                lo <= review_score r <= hi) ->
  Qle (inject_Z lo) q /\ Qle q (inject_Z hi).
Proof.
  intros Hin Hscores.
  rewrite annotate_rating_mean in Hin.
  apply list_elem_of_fmap in Hin as [t' [Heq _]].
  injection Heq as <- Hmean.
  assert (Hall : forall x, x ∈ related_scores s (pk t) -> lo <= x <= hi).
  { intros x Hx. unfold related_scores in Hx.
    apply list_elem_of_fmap in Hx as [[id r] [-> Hr]].
    apply list_elem_of_filter in Hr as [Htitle Hr].
    apply elem_of_map_to_list in Hr. by apply (Hscores id r). }
  pose proof (sum_between lo hi _ Hall) as Hsum.
  unfold arithmetic_mean in Hmean.
  destruct (related_scores s (pk t)) as [|x l] eqn:Hrel; [discriminate |].
  injection Hmean as ->.
  assert (Hn : Z.pos (Pos.of_nat (length (x :: l)))
               = Z.of_nat (length (x :: l))).
  { cbn [length]. rewrite <- Pos.of_nat_succ, Zpos_P_of_succ_nat. lia. }
  unfold Qle, inject_Z. cbn [Qnum Qden length foldr] in *. rewrite Hn. lia.
Qed.

Section NewReview.

Context `{Project}.

Import Drf.

(** X13: a review created through the create operation moves the rating
    of its title to the mean that counts the new score, and leaves the
    rating of every other title as it was. *)
Theorem rating_after_create (request : Request) (kwargs : Kwargs)
    (s s' : Store) (response : Response) :
  ReviewViewSet_view create request kwargs s = (response, s') ->
  status response = HTTP_201_CREATED ->
  exists title_pk d,
    kwargs !! "title_id" = Some title_pk
    /\ ReviewSerializer_validate_create request kwargs s = inr d
    /\ (Orm.annotate_rating s').*1 = (Orm.annotate_rating s).*1
    /\ (forall t q, (t, q) ∈ Orm.annotate_rating s' -> pk t = title_pk ->
          q = Some ((data_score d
                     + foldr Z.add 0 (related_scores s title_pk))
                    # Pos.of_nat (S (length (related_scores s title_pk)))))
    /\ (forall t q, pk t <> title_pk ->
          (t, q) ∈ Orm.annotate_rating s' <-> (t, q) ∈ Orm.annotate_rating s).
Proof.
  intros Hrun Hstatus.
  destruct (ReviewViewSet_create_cases request kwargs s)
    as [(response' & Hsame & Hnot)
       | (title_pk & title & author & d & Hk & Ht & Huser & Hd & Hcreated)].
  { rewrite Hsame in Hrun. injection Hrun as <- <-. done. }
  rewrite Hcreated in Hrun. cbv zeta in Hrun. injection Hrun as <- <-.
  exists title_pk, d. split; [done |]. split; [done |].
  set (r := mkReview title_pk (pk author) (data_text d) (data_score d)).
  pose proof (next_pk_fresh (reviews s)) as Hfresh.
  assert (Hrel : forall k,
    arithmetic_mean
      (related_scores (set_reviews (insert (Orm.next_pk (reviews s)) r) s) k)
    = arithmetic_mean
        (if decide (review_title r = k)
         then review_score r :: related_scores s k
         else related_scores s k)).
  { intros k. apply arithmetic_mean_permutation.
    by apply related_scores_insert. }
  rewrite !annotate_rating_mean. cbn [titles set_reviews].
  split; [by rewrite <- !list_fmap_compose |].
  split.
  - intros t q Hin Hpk.
    apply list_elem_of_fmap in Hin as [t' [[= <- ->] _]].
    rewrite Hrel, Hpk. cbn [review_title r].
    by rewrite decide_True.
  - intros t q Hpk.
    rewrite !list_elem_of_fmap.
    split; intros [t' [[= <- ->] Hin]]; exists t; (split; [| done]);
      rewrite Hrel; cbn [review_title r]; by rewrite decide_False.
Qed.

End NewReview.

(** ** More on reviews and comments under their parents *)

Section ScopedLookup.

Context {A : Type} (parent : A -> Z).

(** A lookup by key inside the rows of one parent finds the row stored
    under the key when it belongs to that parent, and nothing otherwise. *)
Lemma scoped_lookup (m : gmap Z A) (o : option Z) (parent_pk : Z) :
  filter (fun x : Instance A => Some (pk x) = o)
    (filter (fun x : Instance A => parent (row x) = parent_pk)
       (Orm.objects m))
  = match o with
    | Some id =>
        match m !! id with
        | Some x => if decide (parent x = parent_pk) then [(id, x)] else []
        | None => []
        end
    | None => []
    end.
Proof.
  rewrite list_filter_filter.
  rewrite (list_filter_iff _
             (fun x : Instance A =>
                parent (row x) = parent_pk /\ Some (pk x) = o))
    by (intros x; tauto).
  rewrite <- list_filter_filter, objects_by_pk.
  destruct o as [id|]; [| done].
  destruct (m !! id) as [x|]; [| done].
  rewrite filter_cons. cbn [row snd filter]. by destruct (decide _).
Qed.

End ScopedLookup.

Section Scoping.

Context `{Project}.

Import Drf.

Lemma check_permissions_state (request : Request) (verdicts : list bool)
    (s : Store) :
  (check_permissions request verdicts s).2 = s.
Proof.
  induction verdicts as [|granted rest IH]; [done |].
  cbn [check_permissions]. destruct granted; [exact IH |].
  unfold permission_denied. by destruct (is_authenticated request).
Qed.

Lemma check_permissions_granted (request : Request) (verdicts : list bool)
    (s : Store) :
  Forall (fun granted => granted = true) verdicts ->
  check_permissions request verdicts s = (Ok tt, s).
Proof.
  induction 1 as [|granted rest -> _ IH]; [done |].
  cbn [check_permissions]. exact IH.
Qed.

(** The reviews of an existing title. *)
Lemma ReviewViewSet_get_queryset_found (kwargs : Kwargs) (s : Store)
    title_pk title :
  kwargs !! "title_id" = Some title_pk ->
  titles s !! title_pk = Some title ->
  ReviewViewSet_get_queryset kwargs s
  = (Ok (filter
           (fun r : Instance Review => review_title (row r) = title_pk)
           (Orm.objects (reviews s))), s).
Proof.
  intros Hk Ht. unfold ReviewViewSet_get_queryset, bind.
  by rewrite (get_parent_found titles kwargs "title_id" s _ _ Hk Ht).
Qed.

Lemma CommentViewSet_get_queryset_found (kwargs : Kwargs) (s : Store)
    review_pk review :
  kwargs !! "review_id" = Some review_pk ->
  reviews s !! review_pk = Some review ->
  CommentViewSet_get_queryset kwargs s
  = (Ok (filter
           (fun c : Instance Comment => comment_review (row c) = review_pk)
           (Orm.objects (comments s))), s).
Proof.
  intros Hk Hr.
  unfold CommentViewSet_get_queryset, CommentViewSet_get_review, bind.
  by rewrite (get_parent_found reviews kwargs "review_id" s _ _ Hk Hr).
Qed.

(** The ways [get_object] ends on a review endpoint; none writes. *)
Lemma ReviewViewSet_get_object_cases (request : Request) (kwargs : Kwargs)
    (s : Store) :
  ReviewViewSet_get_object request kwargs s = (Raise Http404, s)
  /\ (forall title_pk id r,
        kwargs !! "title_id" = Some title_pk -> kwargs !! "pk" = Some id ->
        reviews s !! id = Some r -> review_title r = title_pk ->
        titles s !! title_pk = None)
  \/ exists title_pk title id r,
       kwargs !! "title_id" = Some title_pk
       /\ titles s !! title_pk = Some title
       /\ kwargs !! "pk" = Some id
       /\ reviews s !! id = Some r
       /\ review_title r = title_pk
       /\ ReviewViewSet_get_object request kwargs s
          = (if IsAdminOrAuthorOrReadOnly_on_review request (id, r)
             then (Ok (id, r), s)
             else (Raise (if is_authenticated request then PermissionDenied
                          else NotAuthenticated), s)).
Proof.
  unfold ReviewViewSet_get_object, bind.
  destruct (get_parent_cases titles kwargs "title_id" s)
    as [(title_pk & title & Hk & Ht & _) | Hmissing].
  2:{ left. unfold ReviewViewSet_get_queryset, bind. rewrite Hmissing.
      split; [done |]. intros title_pk id r Hk _ _ _.
      unfold Orm.get_object_or_404 in Hmissing.
      rewrite objects_by_pk, Hk in Hmissing.
      by destruct (titles s !! title_pk). }
  rewrite (ReviewViewSet_get_queryset_found kwargs s _ _ Hk Ht).
  unfold Orm.get_object_or_404. rewrite (scoped_lookup review_title).
  destruct (kwargs !! "pk") as [id|] eqn:Hpk.
  2:{ left. split; [done |]. intros; congruence. }
  destruct (reviews s !! id) as [r|] eqn:Hr.
  2:{ left. split; [done |]. intros; congruence. }
  destruct (decide (review_title r = title_pk)) as [Htitle | Hother].
  2:{ left. split; [done |]. intros; congruence. }
  right. exists title_pk, title, id, r. repeat split; try done.
  cbn [check_permissions].
  destruct (IsAdminOrAuthorOrReadOnly_on_review request (id, r)); [done |].
  unfold permission_denied. by destruct (is_authenticated request).
Qed.

Lemma CommentViewSet_get_object_cases (request : Request) (kwargs : Kwargs)
    (s : Store) :
  CommentViewSet_get_object request kwargs s = (Raise Http404, s)
  /\ (forall review_pk id c,
        kwargs !! "review_id" = Some review_pk -> kwargs !! "pk" = Some id ->
        comments s !! id = Some c -> comment_review c = review_pk ->
        reviews s !! review_pk = None)
  \/ exists review_pk review id c,
       kwargs !! "review_id" = Some review_pk
       /\ reviews s !! review_pk = Some review
       /\ kwargs !! "pk" = Some id
       /\ comments s !! id = Some c
       /\ comment_review c = review_pk
       /\ CommentViewSet_get_object request kwargs s
          = (if IsAdminOrAuthorOrReadOnly_on_comment request (id, c)
             then (Ok (id, c), s)
             else (Raise (if is_authenticated request then PermissionDenied
                          else NotAuthenticated), s)).
Proof.
  unfold CommentViewSet_get_object, bind.
  destruct (get_parent_cases reviews kwargs "review_id" s)
    as [(review_pk & review & Hk & Hr & _) | Hmissing].
  2:{ left.
      unfold CommentViewSet_get_queryset, CommentViewSet_get_review, bind.
      rewrite Hmissing.
      split; [done |]. intros review_pk id c Hk _ _ _.
      unfold Orm.get_object_or_404 in Hmissing.
      rewrite objects_by_pk, Hk in Hmissing.
      by destruct (reviews s !! review_pk). }
  rewrite (CommentViewSet_get_queryset_found kwargs s _ _ Hk Hr).
  unfold Orm.get_object_or_404. rewrite (scoped_lookup comment_review).
  destruct (kwargs !! "pk") as [id|] eqn:Hpk.
  2:{ left. split; [done |]. intros; congruence. }
  destruct (comments s !! id) as [c|] eqn:Hc.
  2:{ left. split; [done |]. intros; congruence. }
  destruct (decide (comment_review c = review_pk)) as [Hrev | Hother].
  2:{ left. split; [done |]. intros; congruence. }
  right. exists review_pk, review, id, c. repeat split; try done.
  cbn [check_permissions].
  destruct (IsAdminOrAuthorOrReadOnly_on_comment request (id, c)); [done |].
  unfold permission_denied. by destruct (is_authenticated request).
Qed.

End Scoping.

Section ScopedEndpoints.

Context `{Project}.

Import Drf.

(** The run of a review or comment endpoint whose permission classes
    grant the request. *)
Lemma ReviewViewSet_view_granted (action : Action) (request : Request)
    (kwargs : Kwargs) (s : Store) :
  IsAuthenticatedOrReadOnly request = true ->
  IsAdminOrAuthorOrReadOnly_has_permission request = true ->
  ReviewViewSet_view action request kwargs s
  = dispatch (ReviewViewSet_handler action request kwargs) s.
Proof.
  intros Hauth Hperm.
  unfold ReviewViewSet_view, dispatch, bind, ReviewViewSet_permissions.
  cbn [check_permissions]. by rewrite Hauth, Hperm.
Qed.

Lemma CommentViewSet_view_granted (action : Action) (request : Request)
    (kwargs : Kwargs) (s : Store) :
  IsAuthenticatedOrReadOnly request = true ->
  IsAdminOrAuthorOrReadOnly_has_permission request = true ->
  CommentViewSet_view action request kwargs s
  = dispatch (CommentViewSet_handler action request kwargs) s.
Proof.
  intros Hauth Hperm.
  unfold CommentViewSet_view, dispatch, bind, CommentViewSet_permissions.
  cbn [check_permissions]. by rewrite Hauth, Hperm.
Qed.

(** X14: a request that one of the permission classes of a review or
    comment endpoint refuses never reaches a handler: it is answered 401
    (anonymous) or 403 (authenticated), whatever the action and the URL,
    and nothing is written. *)
Theorem refused_by_permission_class (action : Action) (request : Request)
    (kwargs : Kwargs) (s : Store) :
  IsAuthenticatedOrReadOnly request = false
  \/ IsAdminOrAuthorOrReadOnly_has_permission request = false ->
  ReviewViewSet_view action request kwargs s = (refusal request, s)
  /\ CommentViewSet_view action request kwargs s = (refusal request, s).
Proof.
  intros Hrefused. by apply scoped_view_refused.
Qed.

(** X15: a review is reachable only under its own title, and a comment
    only under its own review: a detail request that the permission
    classes grant and whose key names no row of the parent in the URL is
    answered 404 and writes nothing, even when a row with that key exists
    under another parent. *)
Theorem detail_outside_parent_not_found (action : Action)
    (request : Request) (kwargs : Kwargs) (s : Store) :
  detail_action action = true ->
  IsAuthenticatedOrReadOnly request = true ->
  IsAdminOrAuthorOrReadOnly_has_permission request = true ->
  ((forall id r, kwargs !! "pk" = Some id -> reviews s !! id = Some r ->
                 Some (review_title r) <> kwargs !! "title_id") ->
   ReviewViewSet_view action request kwargs s
   = (mkResponse (Detail "Not found.") HTTP_404_NOT_FOUND, s))
  /\ ((forall id c, kwargs !! "pk" = Some id -> comments s !! id = Some c ->
                    Some (comment_review c) <> kwargs !! "review_id") ->
      CommentViewSet_view action request kwargs s
      = (mkResponse (Detail "Not found.") HTTP_404_NOT_FOUND, s)).
Proof.
  intros Hdetail Hauth Hperm. split; intros Houtside.
  - rewrite ReviewViewSet_view_granted by done.
    destruct (ReviewViewSet_get_object_cases request kwargs s)
      as [[H404 _] | (title_pk & title & id & r & Hk & _ & Hpk & Hr & Ht & _)].
    + destruct action; try discriminate Hdetail;
        unfold dispatch; cbn [ReviewViewSet_handler];
        unfold ReviewViewSet_update, bind; by rewrite H404.
    + exfalso. apply (Houtside id r Hpk Hr). by rewrite Hk, Ht.
  - rewrite CommentViewSet_view_granted by done.
    destruct (CommentViewSet_get_object_cases request kwargs s)
      as [[H404 _] | (review_pk & review & id & c & Hk & _ & Hpk & Hc & Hr & _)].
    + destruct action; try discriminate Hdetail;
        unfold dispatch; cbn [CommentViewSet_handler];
        unfold CommentViewSet_update, bind; by rewrite H404.
    + exfalso. apply (Houtside id c Hpk Hc). by rewrite Hk, Hr.
Qed.

(** X16: the reading actions (list, retrieve) of the review and comment
    endpoints never write, whatever the request and whatever the answer. *)
Theorem safe_actions_read_only (action : Action) (request : Request)
    (kwargs : Kwargs) (s : Store) :
  safe_action action = true ->
  (ReviewViewSet_view action request kwargs s).2 = s
  /\ (CommentViewSet_view action request kwargs s).2 = s.
Proof.
  intros Hsafe. split.
  - destruct (IsAuthenticatedOrReadOnly request) eqn:Hauth;
      [destruct (IsAdminOrAuthorOrReadOnly_has_permission request) eqn:Hperm |].
    2,3: unfold ReviewViewSet_view, dispatch, bind,
           ReviewViewSet_permissions; cbn [check_permissions];
         rewrite Hauth, ?Hperm; unfold permission_denied;
         by destruct (is_authenticated request).
    rewrite ReviewViewSet_view_granted by done.
    destruct action; try discriminate Hsafe;
      unfold dispatch; cbn [ReviewViewSet_handler]; unfold bind.
    + destruct (get_parent_cases titles kwargs "title_id" s)
        as [(title_pk & title & Hk & Ht & _) | Hmissing].
      * by rewrite (ReviewViewSet_get_queryset_found kwargs s _ _ Hk Ht).
      * unfold ReviewViewSet_get_queryset, bind. by rewrite Hmissing.
    + destruct (ReviewViewSet_get_object_cases request kwargs s)
        as [[-> _] | (title_pk & title & id & r & _ & _ & _ & _ & _ & ->)];
        [done |].
      by destruct (IsAdminOrAuthorOrReadOnly_on_review request (id, r)).
  - destruct (IsAuthenticatedOrReadOnly request) eqn:Hauth;
      [destruct (IsAdminOrAuthorOrReadOnly_has_permission request) eqn:Hperm |].
    2,3: unfold CommentViewSet_view, dispatch, bind,
           CommentViewSet_permissions; cbn [check_permissions];
         rewrite Hauth, ?Hperm; unfold permission_denied;
         by destruct (is_authenticated request).
    rewrite CommentViewSet_view_granted by done.
    destruct action; try discriminate Hsafe;
      unfold dispatch; cbn [CommentViewSet_handler]; unfold bind.
    + destruct (get_parent_cases reviews kwargs "review_id" s)
        as [(review_pk & review & Hk & Hr & _) | Hmissing].
      * by rewrite (CommentViewSet_get_queryset_found kwargs s _ _ Hk Hr).
      * unfold CommentViewSet_get_queryset, CommentViewSet_get_review, bind.
        by rewrite Hmissing.
    + destruct (CommentViewSet_get_object_cases request kwargs s)
        as [[-> _] | (review_pk & review & id & c & _ & _ & _ & _ & _ & ->)];
        [done |].
      by destruct (IsAdminOrAuthorOrReadOnly_on_comment request (id, c)).
Qed.

End ScopedEndpoints.

Section ObjectAccess.

Context `{Project}.

Import Drf.

(** X17: when the object-level check of [IsAdminOrAuthorOrReadOnly]
    refuses a detail request on a review or a comment that exists under
    the parent of the URL, the request is answered 401 or 403 and the row
    is neither changed nor deleted. *)
Theorem refused_on_object (action : Action) (request : Request)
    (kwargs : Kwargs) (s : Store) (parent_pk id : Z) :
  detail_action action = true ->
  IsAuthenticatedOrReadOnly request = true ->
  IsAdminOrAuthorOrReadOnly_has_permission request = true ->
  kwargs !! "pk" = Some id ->
  (forall r,
     kwargs !! "title_id" = Some parent_pk ->
     is_Some (titles s !! parent_pk) ->
     reviews s !! id = Some r -> review_title r = parent_pk ->
     IsAdminOrAuthorOrReadOnly_on_review request (id, r) = false ->
     ReviewViewSet_view action request kwargs s = (refusal request, s))
  /\ (forall c,
        kwargs !! "review_id" = Some parent_pk ->
        is_Some (reviews s !! parent_pk) ->
        comments s !! id = Some c -> comment_review c = parent_pk ->
        IsAdminOrAuthorOrReadOnly_on_comment request (id, c) = false ->
        CommentViewSet_view action request kwargs s = (refusal request, s)).
Proof.
  intros Hdetail Hauth Hperm Hpk. split.
  - intros r Hk [title Ht] Hr Htitle Hrefused.
    rewrite ReviewViewSet_view_granted by done.
    destruct (ReviewViewSet_get_object_cases request kwargs s)
      as [[_ Hnone] | (title_pk & title' & id' & r' & Hk' & _ & Hpk' & Hr'
                       & _ & Hrun)].
    { specialize (Hnone parent_pk id r Hk Hpk Hr Htitle). congruence. }
    assert (id' = id) as -> by congruence.
    assert (r' = r) as -> by congruence.
    rewrite Hrefused in Hrun.
    destruct action; try discriminate Hdetail;
      unfold dispatch, refusal; cbn [ReviewViewSet_handler];
      unfold ReviewViewSet_update, bind; by rewrite Hrun.
  - intros c Hk [review Hrv] Hc Hreview Hrefused.
    rewrite CommentViewSet_view_granted by done.
    destruct (CommentViewSet_get_object_cases request kwargs s)
      as [[_ Hnone] | (review_pk & review' & id' & c' & Hk' & _ & Hpk' & Hc'
                       & _ & Hrun)].
    { specialize (Hnone parent_pk id c Hk Hpk Hc Hreview). congruence. }
    assert (id' = id) as -> by congruence.
    assert (c' = c) as -> by congruence.
    rewrite Hrefused in Hrun.
    destruct action; try discriminate Hdetail;
      unfold dispatch, refusal; cbn [CommentViewSet_handler];
      unfold CommentViewSet_update, bind; by rewrite Hrun.
Qed.


(** X19: what the create operation stored can be read back: after a
    review was created (201), a retrieve under the same title with the key
    of the new review, by any request the permission classes grant,
    answers 200 with the data of the review that the create answered. *)
Theorem create_then_retrieve (request read : Request) (kwargs : Kwargs)
    (s s' : Store) (response : Response) :
  ReviewViewSet_view create request kwargs s = (response, s') ->
  status response = HTTP_201_CREATED ->
  exists created : Instance Review,
    response_data response = Object (ReviewSerializer_data created)
    /\ (IsAuthenticatedOrReadOnly read = true ->
        IsAdminOrAuthorOrReadOnly_has_permission read = true ->
        IsAdminOrAuthorOrReadOnly_on_review read created = true ->
        ReviewViewSet_view retrieve read (<["pk" := pk created]> kwargs) s'
        = (mkResponse (Object (ReviewSerializer_data created)) HTTP_200_OK,
           s')).
Proof.
  intros Hrun Hstatus.
  destruct (ReviewViewSet_create_cases request kwargs s)
    as [(response' & Hsame & Hnot)
       | (title_pk & title & author & d & Hk & Ht & Huser & Hd & Hcreated)].
  { rewrite Hsame in Hrun. injection Hrun as <- <-. done. }
  rewrite Hcreated in Hrun. cbv zeta in Hrun. injection Hrun as <- <-.
  eexists. split; [reflexivity |].
  intros Hauth Hperm Hobject.
  rewrite ReviewViewSet_view_granted by done.
  set (id := Orm.next_pk (reviews s)) in *.
  set (r := mkReview title_pk (pk author) (data_text d) (data_score d)) in *.
  destruct (ReviewViewSet_get_object_cases read (<["pk" := id]> kwargs)
              (set_reviews (insert id r) s))
    as [[_ Hnone] | (title_pk' & title' & id' & r' & Hk' & _ & Hpk' & Hr'
                     & _ & Hget)].
  { exfalso.
    assert (titles s !! title_pk = None); [| congruence].
    apply (Hnone title_pk id r); [| | | done].
    - etrans; [by apply lookup_insert_ne | exact Hk].
    - apply lookup_insert_eq.
    - apply lookup_insert_eq. }
  assert (Some id' = Some id) as [= ->]
    by (rewrite <- Hpk'; apply lookup_insert_eq).
  cbn [reviews set_reviews] in Hr'. rewrite lookup_insert_eq in Hr'.
  injection Hr' as <-.
  cbn [pk fst] in Hget. rewrite Hobject in Hget.
  unfold dispatch. cbn [ReviewViewSet_handler pk fst]. unfold bind.
  by rewrite Hget.
Qed.

(** X20: the list of a review endpoint shows the reviews of the title in
    the URL, all of them and no others; likewise the list of a comment
    endpoint and the review in the URL. *)
Theorem list_is_scoped_to_parent (request : Request) (kwargs : Kwargs)
    (s : Store) (parent_pk : Z) :
  IsAuthenticatedOrReadOnly request = true ->
  IsAdminOrAuthorOrReadOnly_has_permission request = true ->
  (kwargs !! "title_id" = Some parent_pk ->
   is_Some (titles s !! parent_pk) ->
   exists listed,
     ReviewViewSet_view list_action request kwargs s
     = (mkResponse (ObjectList (ReviewSerializer_data <$> listed))
          HTTP_200_OK, s)
     /\ NoDup listed
     /\ forall id r,
          (id, r) ∈ listed
          <-> reviews s !! id = Some r /\ review_title r = parent_pk)
  /\ (kwargs !! "review_id" = Some parent_pk ->
      is_Some (reviews s !! parent_pk) ->
      exists listed,
        CommentViewSet_view list_action request kwargs s
        = (mkResponse (ObjectList (CommentSerializer_data <$> listed))
             HTTP_200_OK, s)
        /\ NoDup listed
        /\ forall id c,
             (id, c) ∈ listed
             <-> comments s !! id = Some c /\ comment_review c = parent_pk).
Proof.
  intros Hauth Hperm. split.
  - intros Hk [title Ht]. eexists. split; [| split].
    + rewrite ReviewViewSet_view_granted by done.
      unfold dispatch. cbn [ReviewViewSet_handler]. unfold bind.
      by rewrite (ReviewViewSet_get_queryset_found kwargs s _ _ Hk Ht).
    + apply NoDup_filter, NoDup_map_to_list.
    + intros id r. rewrite list_elem_of_filter. unfold Orm.objects.
      rewrite elem_of_map_to_list. cbn [row snd]. tauto.
  - intros Hk [review Hr]. eexists. split; [| split].
    + rewrite CommentViewSet_view_granted by done.
      unfold dispatch. cbn [CommentViewSet_handler]. unfold bind.
      by rewrite (CommentViewSet_get_queryset_found kwargs s _ _ Hk Hr).
    + apply NoDup_filter, NoDup_map_to_list.
    + intros id c. rewrite list_elem_of_filter. unfold Orm.objects.
      rewrite elem_of_map_to_list. cbn [row snd]. tauto.
Qed.

End ObjectAccess.

(** ** Genres and categories *)

Section Taxonomy.

Context (has_permission : Request -> bool)
        (on_taxon : Request -> Instance Taxon -> bool)
        (run_validation : Payload -> gmap Z Taxon -> Errors + Taxon)
        (serializer_data : Instance Taxon -> gmap string Json)
        (icontains : string -> string -> bool).

(** X21: listing genres or categories with a search: a list request
    that the permission class grants is answered 200 with the serialised
    stored rows whose name contains every search term of the request, each
    row once, and all the rows when the request has no term; the table is
    left as it was. *)
Theorem CustomViewSet_list_search (request : Request) (terms : list string)
    (slug : option string) (table : gmap Z Taxon) :
  has_permission request = true ->
  exists listed : list (Instance Taxon),
    CustomViewSet_view has_permission on_taxon run_validation serializer_data
      icontains Drf.list_action request terms slug table
    = (mkResponse (ObjectList (serializer_data <$> listed)) Drf.HTTP_200_OK,
       table)
    /\ NoDup listed
    /\ (forall id taxon,
          (id, taxon) ∈ listed
          <-> table !! id = Some taxon
              /\ forall t, t ∈ terms -> icontains (taxon_name taxon) t = true)
    /\ (terms = [] -> listed = Orm.objects table).
Proof.
  intros Hperm.
  exists (SearchFilter icontains terms (Orm.objects table)).
  split; [| split; [| split]].
  - unfold CustomViewSet_view, CustomViewSet_handler. by rewrite Hperm.
  - apply NoDup_filter, NoDup_map_to_list.
  - intros id taxon. unfold SearchFilter.
    rewrite list_elem_of_filter. unfold Orm.objects.
    rewrite elem_of_map_to_list, forallb_forall. cbn [row snd].
    split; intros [H1 H2]; split; try done.
    + intros t Ht. apply H1. by apply list_elem_of_In.
    + intros t Ht. apply H2. by apply list_elem_of_In.
  - intros ->. unfold SearchFilter. by apply filter_all.
Qed.

(** X22: genres and categories are deleted by slug: a destroy request
    without search terms that the permission class grants, for a slug no
    stored row carries, is answered 404 and removes nothing; for the slug
    of exactly one stored row it is answered 204, removes that row and
    leaves every other row. *)
Theorem CustomViewSet_destroy_by_slug (request : Request) (slug : string)
    (table : gmap Z Taxon) :
  has_permission request = true ->
  ((forall id taxon, table !! id = Some taxon -> taxon_slug taxon <> slug) ->
   CustomViewSet_view has_permission on_taxon run_validation serializer_data
     icontains Drf.destroy request [] (Some slug) table
   = (mkResponse (Detail "Not found.") Drf.HTTP_404_NOT_FOUND, table))
  /\ (forall id taxon,
        table !! id = Some taxon -> taxon_slug taxon = slug ->
        (forall id' taxon',
           table !! id' = Some taxon' -> taxon_slug taxon' = slug ->
           id' = id) ->
        on_taxon request (id, taxon) = true ->
        exists table',
          CustomViewSet_view has_permission on_taxon run_validation
            serializer_data icontains Drf.destroy request [] (Some slug)
            table
          = (mkResponse NoData Drf.HTTP_204_NO_CONTENT, table')
          /\ table' !! id = None
          /\ forall id', id' <> id -> table' !! id' = table !! id').
Proof.
  intros Hperm. unfold CustomViewSet_view, CustomViewSet_handler,
    CustomViewSet_get_object.
  rewrite Hperm. split.
  - intros Hnone.
    unfold SearchFilter. rewrite (filter_all _ (Orm.objects table)) by done.
    rewrite filter_none; [done |].
    intros [id taxon] Hin [= Hslug]. apply elem_of_map_to_list in Hin.
    by apply (Hnone id taxon).
  - intros id taxon Hrow Hslug Huniq Hobject.
    unfold SearchFilter. rewrite (filter_all _ (Orm.objects table)) by done.
    rewrite (filter_single _ _ (id, taxon)).
    + rewrite Hobject. eexists. split; [reflexivity |]. cbn [pk fst].
      split; [apply lookup_delete_eq |].
      intros id' Hne. by apply lookup_delete_ne.
    + apply NoDup_map_to_list.
    + by apply elem_of_map_to_list.
    + cbn [row snd]. by rewrite Hslug.
    + intros [id' taxon'] Hin [= Hslug']. apply elem_of_map_to_list in Hin.
      assert (id' = id) as -> by (by apply (Huniq id' taxon')).
      congruence.
Qed.

End Taxonomy.

(** ** The serializer of the title endpoints *)

(** X23: [get_serializer_class] picks [TitlesSerializer] exactly when the
    method is a slice of the string 'GET' (the empty string and 'G', 'E',
    'T', 'GE', 'ET' included), and [TitleCreateSerializer] for every other
    string. *)
Theorem get_serializer_class_TitlesSerializer (request : Request) :
  (get_serializer_class request = TitlesSerializer
   <-> method request ∈ slices_of_GET)
  /\ (get_serializer_class request = TitleCreateSerializer
      <-> method request ∉ slices_of_GET).
Proof.
  unfold get_serializer_class.
  pose proof (str_in_GET (method request)) as Hslices.
  destruct (Py.str_in (method request) "GET"); cbn [negb].
  - split; [tauto |]. split; [discriminate |].
    intros Hout. exfalso. apply Hout. by apply Hslices.
  - assert (method request ∉ slices_of_GET).
    { intros Hin. apply Hslices in Hin. discriminate. }
    split; [| tauto]. split; [discriminate | tauto].
Qed.

(** ** The further properties on the sample project *)

Lemma TokenViewSet_post_token_sound_witness :
  exists d u,
    TokenSerializer_run_validation (Project := Sample.project)
      (data Sample.token_request) Sample.store = inr d
    /\ users Sample.store !! pk u = Some (row u)
    /\ username (row u) = "alice".
Proof.
  destruct (TokenViewSet_post_token_sound (H := Sample.project)
              Sample.token_request Sample.store "jwt.alice" eq_refl)
    as (d & u & Hd & Hu & Hname & _).
  exists d, u. split; [exact Hd |]. split; [exact Hu |].
  rewrite Hname. cbn in Hd. by injection Hd as <-.
Defined.

Lemma TokenViewSet_post_unknown_user_witness :
  Drf.dispatch (TokenViewSet_post (H := Sample.project)
                  Scenario.unknown_token_request) Sample.store
  = (mkResponse (Detail "Not found.") Drf.HTTP_404_NOT_FOUND, Sample.store).
Proof.
  apply (TokenViewSet_post_unknown_user (H := Sample.project)
           Scenario.unknown_token_request Sample.store
           (mkTokenData "nobody" "x") eq_refl).
  change (map_Forall (fun _ u => username u <> "nobody") (users Sample.store)).
  apply (bool_decide_unpack _). by vm_compute.
Defined.

Lemma signup_then_token_witness :
  let s2 :=
    (Drf.dispatch (SignUpVeiwSet_post (H := Sample.project)
                     Sample.signup_request) Sample.store).2 in
  Drf.dispatch (TokenViewSet_post (H := Sample.project)
                  Scenario.carol_token_request) s2
  = (mkResponse (Object {["token" := JValue (VStr "jwt.carol")]})
       Drf.HTTP_200_OK, s2).
Proof.
  apply (signup_then_token (H := Sample.project)
           Sample.signup_request Scenario.carol_token_request
           Sample.store
           (set_users (insert 3 (row Scenario.carol)) Sample.store)
           (mkSignUpData "carol" "carol@example.com") Scenario.carol
           (mkTokenData "carol" "carol:carol@example.com"));
    try reflexivity.
  unfold unique_usernames. apply (bool_decide_unpack _). by vm_compute.
Defined.

Lemma UserViewSet_me_anonymous_witness :
  UserViewSet_me (H := Sample.project) Sample.anonymous_review_request
    Sample.store
  = (mkResponse (Detail "Authentication credentials were not provided.")
       Drf.HTTP_401_UNAUTHORIZED, Sample.store).
Proof.
  exact (UserViewSet_me_anonymous (H := Sample.project)
           Sample.anonymous_review_request Sample.store eq_refl).
Defined.

Lemma UserViewSet_me_get_witness :
  UserViewSet_me (H := Sample.project) Scenario.get_me_request Sample.store
  = (mkResponse (Object (Sample.user_json Sample.alice)) Drf.HTTP_200_OK,
     Sample.store).
Proof.
  exact (UserViewSet_me_get (H := Sample.project) Scenario.get_me_request
           Sample.alice Sample.store eq_refl eq_refl).
Defined.

Lemma UserViewSet_me_role_only_witness :
  UserViewSet_me (H := Sample.project) Scenario.patch_role_request
    Sample.store
  = (mkResponse (Object (Sample.user_json Sample.alice)) Drf.HTTP_200_OK,
     Sample.store).
Proof.
  apply (UserViewSet_me_role_only (H := Sample.project)
           Scenario.patch_role_request Sample.alice Sample.store
           {["role" := VRole RoleAdmin]});
    first [reflexivity | discriminate].
Defined.

Lemma TitleViewSet_retrieve_missing_witness :
  Drf.dispatch (TitleViewSet_retrieve (H := Sample.project)
                  Sample.get_request {["pk" := 999]}) Sample.store
  = (mkResponse (Detail "Not found.") Drf.HTTP_404_NOT_FOUND, Sample.store).
Proof.
  apply (TitleViewSet_retrieve_missing (H := Sample.project)).
  intros id t [= <-] Ht. discriminate Ht.
Defined.

Lemma rating_within_scores_witness :
  Qle (inject_Z 1) (13 # 2) /\ Qle (13 # 2) (inject_Z 10).
Proof.
  apply (rating_within_scores Sample.store (10, mkTitle "Solaris")).
  - apply (list_elem_of_lookup_2 _ 1%nat). reflexivity.
  - change (map_Forall
              (fun _ r => review_title r = 10 -> 1 <= review_score r <= 10)
              (reviews Sample.store)).
    apply (bool_decide_unpack _). by vm_compute.
Defined.

Lemma rating_after_create_witness :
  exists title_pk d,
    ({["title_id" := 11]} : Kwargs) !! "title_id" = Some title_pk
    /\ ReviewSerializer_validate_create (Project := Sample.project)
         Sample.review_request {["title_id" := 11]} Sample.store = inr d
    /\ data_score d = 7.
Proof.
  destruct (ReviewViewSet_view (H := Sample.project) Drf.create
              Sample.review_request {["title_id" := 11]} Sample.store)
    as [response s'] eqn:Hrun.
  assert (Hstatus : status response = Drf.HTTP_201_CREATED)
    by (vm_compute in Hrun; by injection Hrun as <- _).
  destruct (rating_after_create (H := Sample.project) Sample.review_request
              {["title_id" := 11]} Sample.store s' response Hrun Hstatus)
    as (title_pk & d & Hk & Hd & _).
  exists title_pk, d. split; [exact Hk |]. split; [exact Hd |].
  cbn in Hd. by injection Hd as <-.
Defined.

Lemma refused_by_permission_class_witness :
  ReviewViewSet_view (H := Sample.project) Drf.destroy
    Sample.anonymous_review_request {["title_id" := 10; "pk" := 100]}
    Sample.store
  = (refusal Sample.anonymous_review_request, Sample.store).
Proof.
  exact (proj1
    (refused_by_permission_class (H := Sample.project) Drf.destroy
       Sample.anonymous_review_request {["title_id" := 10; "pk" := 100]}
       Sample.store (or_introl eq_refl))).
Defined.

Lemma detail_outside_parent_not_found_witness :
  reviews Sample.store !! 100 = Some (mkReview 10 1 "Slow and great" 9)
  /\ ReviewViewSet_view (H := Sample.project) Drf.retrieve
       Sample.get_request {["title_id" := 11; "pk" := 100]} Sample.store
     = (mkResponse (Detail "Not found.") Drf.HTTP_404_NOT_FOUND,
        Sample.store).
Proof.
  split; [reflexivity |].
  apply (proj1
    (detail_outside_parent_not_found (H := Sample.project) Drf.retrieve
       Sample.get_request {["title_id" := 11; "pk" := 100]} Sample.store
       eq_refl eq_refl eq_refl)).
  intros id r [= <-] [= <-]. discriminate.
Defined.

Lemma safe_actions_read_only_witness :
  (ReviewViewSet_view (H := Sample.project) Drf.list_action
     Sample.get_request {["title_id" := 10]} Sample.store).2
  = Sample.store.
Proof.
  exact (proj1
    (safe_actions_read_only (H := Sample.project) Drf.list_action
       Sample.get_request {["title_id" := 10]} Sample.store eq_refl)).
Defined.

Lemma refused_on_object_witness :
  ReviewViewSet_view (H := Sample.project) Drf.partial_update
    Scenario.patch_review_request {["title_id" := 10; "pk" := 101]}
    Sample.store
  = (mkResponse
       (Detail "You do not have permission to perform this action.")
       Drf.HTTP_403_FORBIDDEN, Sample.store).
Proof.
  exact (proj1
    (refused_on_object (H := Sample.project) Drf.partial_update
       Scenario.patch_review_request {["title_id" := 10; "pk" := 101]}
       Sample.store 10 101 eq_refl eq_refl eq_refl eq_refl)
    (mkReview 10 2 "Too slow" 4) eq_refl (mk_is_Some _ _ eq_refl)
    eq_refl eq_refl eq_refl).
Defined.


Lemma create_then_retrieve_witness :
  let s' :=
    (ReviewViewSet_view (H := Sample.project) Drf.create
       Sample.review_request {["title_id" := 11]} Sample.store).2 in
  exists created : Instance Review,
    ReviewViewSet_view (H := Sample.project) Drf.retrieve Sample.get_request
      (<["pk" := pk created]> {["title_id" := 11]}) s'
    = (mkResponse (Object (Sample.review_json created)) Drf.HTTP_200_OK, s').
Proof.
  cbv zeta.
  destruct (ReviewViewSet_view (H := Sample.project) Drf.create
              Sample.review_request {["title_id" := 11]} Sample.store)
    as [response s'] eqn:Hrun.
  assert (Hstatus : status response = Drf.HTTP_201_CREATED)
    by (vm_compute in Hrun; by injection Hrun as <- _).
  destruct (create_then_retrieve (H := Sample.project) Sample.review_request
              Sample.get_request {["title_id" := 11]} Sample.store s'
              response Hrun Hstatus)
    as (created & _ & Hread).
  exists created. apply Hread; reflexivity.
Defined.

Lemma list_is_scoped_to_parent_witness :
  exists listed,
    ReviewViewSet_view (H := Sample.project) Drf.list_action
      Sample.get_request {["title_id" := 10]} Sample.store
    = (mkResponse (ObjectList (Sample.review_json <$> listed))
         Drf.HTTP_200_OK, Sample.store)
    /\ (101, mkReview 10 2 "Too slow" 4) ∈ listed.
Proof.
  destruct (proj1
    (list_is_scoped_to_parent (H := Sample.project) Sample.get_request
       {["title_id" := 10]} Sample.store 10 eq_refl eq_refl))
    as (listed & Hrun & _ & Hlisted); [reflexivity | by eexists |].
  exists listed. split; [exact Hrun |].
  apply Hlisted. split; reflexivity.
Defined.

Lemma CustomViewSet_list_search_witness :
  exists listed,
    Scenario.genre_list Sample.get_request ["fiction"] None Scenario.genres
    = (mkResponse (ObjectList (Scenario.taxon_json <$> listed))
         Drf.HTTP_200_OK, Scenario.genres)
    /\ NoDup listed
    /\ (2, mkTaxon "Science fiction" "sci-fi") ∈ listed
    /\ (3, mkTaxon "Fiction" "fiction") ∈ listed
    /\ (1, mkTaxon "Drama" "drama") ∉ listed.
Proof.
  destruct (CustomViewSet_list_search Scenario.admin_or_read_only
              (fun request _ => Scenario.admin_or_read_only request)
              (fun _ _ => inl ∅) Scenario.taxon_json Scenario.contains
              Sample.get_request ["fiction"] None Scenario.genres eq_refl)
    as (listed & Hrun & Hnodup & Hlisted & _).
  exists listed. split; [exact Hrun |]. split; [exact Hnodup |].
  split; [| split].
  - apply Hlisted. split; [reflexivity |].
    intros t Ht. apply list_elem_of_singleton in Ht as ->. reflexivity.
  - apply Hlisted. split; [reflexivity |].
    intros t Ht. apply list_elem_of_singleton in Ht as ->. reflexivity.
  - intros Hin. apply Hlisted in Hin as [_ Hall].
    specialize (Hall "fiction" (list_elem_of_here _ _)). discriminate Hall.
Defined.

Lemma CustomViewSet_destroy_by_slug_witness :
  exists table',
    Scenario.genre_view Drf.destroy Scenario.delete_request []
      (Some "sci-fi") Scenario.genres
    = (mkResponse NoData Drf.HTTP_204_NO_CONTENT, table')
    /\ table' !! 2 = None
    /\ table' !! 1 = Some (mkTaxon "Drama" "drama").
Proof.
  destruct (proj2
    (CustomViewSet_destroy_by_slug (fun _ => true) (fun _ _ => true)
       (fun _ _ => inl ∅) (fun _ => ∅) Scenario.contains
       Scenario.delete_request "sci-fi" Scenario.genres eq_refl)
    2 (mkTaxon "Science fiction" "sci-fi") eq_refl eq_refl)
    as (table' & Hrun & Hgone & Hkept).
  - intros id' taxon' Hrow Hslug.
    assert (Hall : map_Forall
              (fun id taxon => taxon_slug taxon = "sci-fi" -> id = 2)
              Scenario.genres)
      by (apply (bool_decide_unpack _); by vm_compute).
    by apply (Hall id' taxon').
  - reflexivity.
  - exists table'. split; [exact Hrun |]. split; [exact Hgone |].
    by rewrite Hkept.
Defined.
